(** * scripts/https_server.py: a static file server behind TLS

    The script is a flat sequence of standard-library calls: it picks the
    directory to serve from [sys.argv], enters it, builds an
    [http.server.HTTPServer] on a fixed address, loads [cert.pem] and
    [key.pem], wraps the listening socket with TLS, prints two lines and
    calls [serve_forever].

    The embedding has three layers:
    - [posixpath]: the string functions of [os.path] the script and the
      request handler go through ([join], [dirname], [normpath], ...);
    - [World], [Proc]: the operating system as a record of oracles (file
      system, port table, incoming connections) and a state-and-exception
      monad in which every library call of the script is a primitive that
      records what it did in a trace;
    - [main]: the script itself, statement by statement.

    [sys.argv] and [__file__] are inputs of the script. The file system is
    addressed by normalised names and has no symbolic links, except that
    the name [os.getcwd] reports for a directory is left to the world.
    A character is a code point below 256, as in a request line, which
    the library decodes as ISO-8859-1. The condition of the standard
    streams (missing, written through, buffered, refusing writes) is part
    of the world and stays the same during a run.
    The serve loop has no exit of its own; a run is observed for a number
    of turns of the loop ([fuel]), after which the process is reported as
    still [Serving]. *)

From Stdlib Require Import String Ascii List Bool Arith ZArith Lia.
From Stdlib Require Import Numbers.DecimalString.
Import ListNotations.

Local Open Scope list_scope.
Local Open Scope string_scope.

(** ** Python [str] methods used below *)

Module pystr.

(** [s.startswith(p)] *)
Fixpoint startswith (p s : string) : bool :=
  match p with
  | EmptyString => true
  | String a p' =>
      match s with
      | EmptyString => false
      | String b s' => Ascii.eqb a b && startswith p' s'
      end
  end.

(** [c in s] for a one-character [c] *)
Fixpoint contains (c : ascii) (s : string) : bool :=
  match s with
  | EmptyString => false
  | String a s' => Ascii.eqb a c || contains c s'
  end.

(** [s.endswith(c)] for a one-character [c] *)
Fixpoint endswith (c : ascii) (s : string) : bool :=
  match s with
  | EmptyString => false
  | String a EmptyString => Ascii.eqb a c
  | String _ s' => endswith c s'
  end.

(** [s.split(c)]: never empty, one more field than occurrences of [c] *)
Fixpoint split (c : ascii) (s : string) : list string :=
  match s with
  | EmptyString => [EmptyString]
  | String a s' =>
      if Ascii.eqb a c then EmptyString :: split c s'
      else match split c s' with
           | [] => [String a EmptyString]
           | w :: ws => String a w :: ws
           end
  end.

(** [s.split(c, 1)[0]]: the part of [s] before the first [c] *)
Fixpoint before (c : ascii) (s : string) : string :=
  match s with
  | EmptyString => EmptyString
  | String a s' => if Ascii.eqb a c then EmptyString else String a (before c s')
  end.

(** [s.rstrip(chars)], [keep] telling which characters are not stripped *)
Fixpoint rstrip (keep : ascii -> bool) (s : string) : string :=
  match s with
  | EmptyString => EmptyString
  | String a s' =>
      match rstrip keep s' with
      | EmptyString => if keep a then String a EmptyString else EmptyString
      | r => String a r
      end
  end.

(** the characters [str.rstrip()] removes when called without argument,
    among the code points below 256: space, \t, \n, \v, \f, \r, the
    separators 28-31, NEXT LINE (133) and NO-BREAK SPACE (160) *)
Definition isspace (a : ascii) : bool :=
  let n := nat_of_ascii a in
  Nat.eqb n 32 || (Nat.leb 9 n && Nat.leb n 13) || (Nat.leb 28 n && Nat.leb n 31)
  || Nat.eqb n 133 || Nat.eqb n 160.

(** [c.join(ws)] *)
Definition join (c : string) (ws : list string) : string := String.concat c ws.

(** [str(n)] for an integer *)
Definition of_Z (n : Z) : string := NilZero.string_of_int (Z.to_int n).

End pystr.

(** ** [posixpath] *)

Module posixpath.

Definition sep : ascii := "/"%char.
Definition curdir : string := ".".
Definition pardir : string := "..".

(** [isabs(s)]: [s.startswith('/')] *)
Definition isabs (s : string) : bool := pystr.startswith "/" s.

(** [join(a, b)]: an absolute [b] discards [a]; otherwise [b] is appended,
    with a separator unless [a] is empty or already ends with one. *)
Definition join (a b : string) : string :=
  if pystr.startswith "/" b then b
  else if (a =? "") || pystr.endswith sep a then a ++ b
  else a ++ "/" ++ b.

(** [p[:p.rfind('/') + 1]] *)
Fixpoint head (p : string) : string :=
  match p with
  | EmptyString => EmptyString
  | String a p' => if pystr.contains sep p then String a (head p') else EmptyString
  end.

(** [dirname(p)]: everything up to the last separator, trailing
    separators removed unless nothing else is left. *)
Definition dirname (p : string) : string :=
  let h := head p in
  let stripped := pystr.rstrip (fun a => negb (Ascii.eqb a sep)) h in
  if stripped =? "" then h else stripped.

(** [initial_slashes] of [normpath]: 0, 1, or 2 for exactly two. *)
Definition initial_slashes (path : string) : nat :=
  if pystr.startswith "/" path then
    if pystr.startswith "//" path && negb (pystr.startswith "///" path) then 2 else 1
  else 0.

(** The loop of [normpath] over the components. [new_comps] is kept with
    its last element first, so that [new_comps[-1]] is the head and
    [pop()] is the tail. *)
Fixpoint collapse (slashes : nat) (comps new_comps : list string) : list string :=
  match comps with
  | [] => new_comps
  | comp :: rest =>
      if (comp =? "") || (comp =? curdir) then collapse slashes rest new_comps
      else if negb (comp =? pardir)
              || (Nat.eqb slashes 0 && match new_comps with [] => true | _ => false end)
              || match new_comps with last :: _ => last =? pardir | [] => false end
      then collapse slashes rest (comp :: new_comps)
      else collapse slashes rest (List.tl new_comps)
  end.

Fixpoint slashes_str (n : nat) : string :=
  match n with O => "" | S k => String sep (slashes_str k) end.

(** [normpath(path)] *)
Definition normpath (path : string) : string :=
  if path =? "" then curdir
  else
    let k := initial_slashes path in
    let comps := rev (collapse k (pystr.split sep path) []) in
    let joined := slashes_str k ++ pystr.join "/" comps in
    if joined =? "" then curdir else joined.

(** [abspath(path)] with the value [os.getcwd()] returns passed in. *)
Definition abspath_from (cwd path : string) : string :=
  normpath (if isabs path then path else join cwd path).

End posixpath.

(** ** The operating system and the network, as seen by the process *)

(** Exceptions the library calls of the script raise. *)
Inductive exn : Type :=
| FileNotFoundError (path : string)
| NotADirectoryError (path : string)
| IsADirectoryError (path : string)
| PermissionError (path : string)
| OSError (errno : string)
| SSLError
| ValueError (message : string)
| AttributeError (message : string)
| UnicodeEncodeError (text : string).

Inductive fs_node : Type :=
| File (content : string)
| Dir (entries : list string).

(** A request as [BaseHTTPRequestHandler.parse_request] leaves it, with the
    values the log line and the error report are made of. *)
Record request : Type := mkRequest {
  client : string;      (* [address_string()] *)
  peer : string;        (* [client_address], as [print] shows it *)
  date : string;        (* [log_date_time_string()] *)
  command : string;
  path : string;
  version : string;
  if_modified_since : option string
    (* the value of [If-Modified-Since] when that header is there and
       [If-None-Match] is not *)
}.

(** What one turn of the loop of [serve_forever] meets. *)
Inductive conn_event : Type :=
| Idle                        (* [select] timed out *)
| AcceptFailed                (* [accept] raised [OSError]: a TLS handshake that failed *)
| Request (r : request)       (* a connection whose request line was parsed *)
| Aborted (peer : string) (e : exn)
                              (* the handler raised the exception [e], e.g. the peer reset *)
| Signal.                     (* the process is terminated from outside *)

(** A standard stream of the interpreter. *)
Inductive stdout_state : Type :=
| Absent                          (* [sys.stdout] is [None] *)
| WriteThrough (accepts : bool)   (* a terminal, or [-u]: a line is written at once,
                                     and every write raises [OSError] unless [accepts] *)
| Buffered.                       (* redirected: the text stays in the buffer of the
                                     process until the interpreter exits *)

(** [sys.stderr] writes every line at once. *)
Inductive stderr_state : Type :=
| NoStderr                        (* [sys.stderr] is [None] *)
| Stderr (accepts : bool).        (* every write raises [OSError] unless [accepts] *)

Record World : Type := mkWorld {
  w_cwd : string;                            (* working directory of the invoker *)
  w_fs : string -> option fs_node;           (* [None]: no such file or directory *)
  w_access : string -> bool;                 (* may the process enter or read it *)
  w_realpath : string -> string;             (* the name [getcwd] gives a directory *)
  w_bind : string -> Z -> option exn;        (* [None]: the address can be bound *)
  w_valid_pair : string -> string -> bool;   (* certificate and key contents match *)
  w_conn : nat -> conn_event;                (* the i-th turn of the serve loop *)
  w_stdout : stdout_state;
  w_stdout_encodes : ascii -> bool;          (* can the encoding of [sys.stdout] take it *)
  w_stderr : stderr_state;
  w_unmodified : string -> string -> bool;   (* the date parses and the file is not newer *)
  w_traceback : exn -> string                (* what [traceback.print_exc] prints *)
}.

(** ** What the process does: the trace *)

Inductive response : Type :=
| FileContent (file : string) (content : string)   (* 200 and the bytes of [file] *)
| Listing (dir : string) (names : list string)     (* 200 and a generated index of [dir] *)
| HeadersOnly (code : string)                      (* headers alone: HEAD, 301 and 304 *)
| ErrorPage (code : string).                       (* the generated page of [send_error] *)

Inductive event : Type :=
| EvChdir (path : string)
| EvBind (host : string) (port : Z)
| EvListen
| EvLoadCert (certfile keyfile : string)
| EvWrapSocket
| EvStdout (line : string)      (* [print(line)] of the script has returned *)
| EvStderr (line : string)      (* [log_message] has written [line] to [sys.stderr] *)
| EvReport (text : string)      (* [handle_error] has printed [text] *)
| EvRespond (r : response).

(** The process: its working directory, the [__shutdown_request] flag of
    the server object, and everything it has done so far, oldest first. *)
Record proc : Type := mkProc {
  cwd : string;
  shutdown_request : bool;
  trace : list event
}.

Definition init (w : World) : proc :=
  {| cwd := w_cwd w; shutdown_request := false; trace := [] |}.

Definition emit (e : event) (s : proc) : proc :=
  {| cwd := cwd s; shutdown_request := shutdown_request s; trace := (trace s ++ [e])%list |}.

(** ** The monad of the script *)

(** How a computation ends: with a value, with an exception that nothing
    has caught so far, killed from outside, still inside the serve loop
    when the observation stops, or with an exception that has left
    [serve_forever], where nothing is left to catch it. *)
Inductive outcome (A : Type) : Type :=
| Returned (a : A)
| Raised (e : exn)
| Killed
| Serving
| Crashed (e : exn).

Arguments Returned {A} a.
Arguments Raised {A} e.
Arguments Killed {A}.
Arguments Serving {A}.
Arguments Crashed {A} e.

Definition Proc (A : Type) : Type := proc -> outcome A * proc.

Definition ret {A} (a : A) : Proc A := fun s => (Returned a, s).

Definition bind {A B} (c : Proc A) (k : A -> Proc B) : Proc B :=
  fun s =>
    match c s with
    | (Returned a, s') => k a s'
    | (Raised e, s') => (Raised e, s')
    | (Killed, s') => (Killed, s')
    | (Serving, s') => (Serving, s')
    | (Crashed e, s') => (Crashed e, s')
    end.

(** [try: c except Exception as e: handler(e)] *)
Definition try_except {A} (c : Proc A) (handler : exn -> Proc A) : Proc A :=
  fun s =>
    match c s with
    | (Raised e, s') => handler e s'
    | r => r
    end.

(** An exception that reaches the caller of [serve_forever]. *)
Definition leaving {A} (c : Proc A) : Proc A :=
  fun s =>
    match c s with
    | (Raised e, s') => (Crashed e, s')
    | r => r
    end.

Definition raise {A} (e : exn) : Proc A := fun s => (Raised e, s).
Definition record_event (e : event) : Proc unit := fun s => (Returned tt, emit e s).

Declare Scope proc_scope.
Delimit Scope proc_scope with proc.
Notation "x <- c ;; k" := (bind c (fun x => k))
  (at level 61, c at next level, right associativity) : proc_scope.
Notation "c ;; k" := (bind c (fun _ => k))
  (at level 61, right associativity) : proc_scope.
Local Open Scope proc_scope.


(** The kernel resolves a path component by component; in a file system
    without symbolic links that is the entry under the normalised name. *)
Definition stat (w : World) (p : string) : option fs_node :=
  w_fs w (posixpath.normpath p).

(** The character no file name holds; a path with it makes the system
    calls of Python raise [ValueError]. *)
Definition nul : ascii := ascii_of_nat 0.

(** [os.path.isdir(p)], [os.path.isfile(p)]: [False] when [os.stat]
    raises [OSError] or [ValueError]. *)
Definition isdir (w : World) (p : string) : bool :=
  if pystr.contains nul p then false
  else match stat w p with Some (Dir _) => true | _ => false end.

Definition isfile (w : World) (p : string) : bool :=
  if pystr.contains nul p then false
  else match stat w p with Some (File _) => true | _ => false end.

(** ** [http.server.SimpleHTTPRequestHandler], the handler the script installs *)

Module http_server.

Definition hexval (a : ascii) : option nat :=
  let n := nat_of_ascii a in
  if Nat.leb 48 n && Nat.leb n 57 then Some (n - 48)
  else if Nat.leb 65 n && Nat.leb n 70 then Some (n - 55)
  else if Nat.leb 97 n && Nat.leb n 102 then Some (n - 87)
  else None.

(** [urllib.parse.unquote], as far as its result stays below code point
    128: [%XY] with two hexadecimal digits becomes the character [XY], any
    other [%] stays. (For [XY] from 80 on the library decodes the bytes as
    UTF-8, which gives code points this alphabet does not have.) *)
Fixpoint unquote (s : string) : string :=
  match s with
  | EmptyString => EmptyString
  | String a s' =>
      if Ascii.eqb a "%" then
        match s' with
        | String x (String y rest) =>
            match hexval x, hexval y with
            | Some h, Some l => String (ascii_of_nat (16 * h + l)) (unquote rest)
            | _, _ => String a (unquote s')
            end
        | _ => String a (unquote s')
        end
      else String a (unquote s')
  end.

(** One turn of the loop of [translate_path] over the words of the
    request path: a word that is not a plain name is skipped. *)
Definition add_word (path word : string) : string :=
  if negb (posixpath.dirname word =? "")
     || (word =? posixpath.curdir) || (word =? posixpath.pardir)
  then path
  else posixpath.join path word.

(** [translate_path(path)], [directory] being [self.directory]. *)
Definition translate_path (directory path : string) : string :=
  let path := pystr.before "?" path in
  let path := pystr.before "#" path in
  let trailing_slash :=
    pystr.endswith "/" (pystr.rstrip (fun a => negb (pystr.isspace a)) path) in
  let path := unquote path in
  let path := posixpath.normpath path in
  let words := pystr.split "/" path in
  let words := filter (fun word => negb (word =? "")) words in
  let path := fold_left add_word words directory in
  if trailing_slash then path ++ "/" else path.

Definition dquote : string := String (ascii_of_nat 34) EmptyString.

Definition hexdigit (n : nat) : ascii :=
  if Nat.ltb n 10 then ascii_of_nat (48 + n) else ascii_of_nat (87 + n).

(** [message.translate(self._control_char_table)]: control characters are
    shown as [\xNN] and the backslash is doubled. *)
Fixpoint escape_control (msg : string) : string :=
  match msg with
  | EmptyString => EmptyString
  | String a rest =>
      let n := nat_of_ascii a in
      if Nat.eqb n 92 then String a (String a (escape_control rest))
      else if Nat.ltb n 32 || (Nat.leb 127 n && Nat.ltb n 160)
      then String (ascii_of_nat 92) (String "x" (String (hexdigit (n / 16))
             (String (hexdigit (n mod 16)) (escape_control rest))))
      else String a (escape_control rest)
  end.

(** The line [log_message] writes to [sys.stderr]. *)
Definition log_message (r : request) (msg : string) : string :=
  client r ++ " - - [" ++ date r ++ "] " ++ escape_control msg.

Definition requestline (r : request) : string :=
  command r ++ " " ++ path r ++ " " ++ version r.

Definition log_request (r : request) (code : string) : string :=
  log_message r (dquote ++ requestline r ++ dquote ++ " " ++ code ++ " -").

Definition log_error (r : request) (code message : string) : string :=
  log_message r ("code " ++ code ++ ", message " ++ message).

End http_server.

(** [all_chars f s]: every character of [s] satisfies [f]. *)
Fixpoint all_chars (f : ascii -> bool) (s : string) : bool :=
  match s with
  | EmptyString => true
  | String a s' => f a && all_chars f s'
  end.

(** ** The library calls of the script *)

Section Script.

Variable w : World.

(** [os.getcwd()] *)
Definition os_getcwd : Proc string := fun s => (Returned (cwd s), s).

(** [os.path.abspath(path)] *)
Definition os_path_abspath (path : string) : Proc string :=
  if posixpath.isabs path then ret (posixpath.normpath path)
  else (cwd <- os_getcwd ;; ret (posixpath.normpath (posixpath.join cwd path))).

(** [os.chdir(path)] *)
Definition os_chdir (path : string) : Proc unit :=
  match stat w path with
  | None => raise (FileNotFoundError path)
  | Some (File _) => raise (NotADirectoryError path)
  | Some (Dir _) =>
      if w_access w path then
        fun s => (Returned tt,
                  emit (EvChdir path)
                    {| cwd := w_realpath w path;
                       shutdown_request := shutdown_request s;
                       trace := trace s |})
      else raise (PermissionError path)
  end.

Inductive socket_kind : Type := PlainSocket | TlsSocket.

Record HTTPServer_obj : Type := mkServer {
  server_address : string * Z;
  socket : socket_kind
}.

(** [http.server.HTTPServer(server_address, handler)]: the constructor
    of [socketserver.TCPServer] creates the socket and, as
    [bind_and_activate] is left at its default, binds it and starts
    listening before it returns. *)
Definition HTTPServer (address : string * Z) : Proc HTTPServer_obj :=
  (fun s => (Returned tt,
             {| cwd := cwd s; shutdown_request := false; trace := trace s |})) ;;
  match w_bind w (fst address) (snd address) with
  | Some e => raise e
  | None =>
      record_event (EvBind (fst address) (snd address)) ;;
      record_event EvListen ;;
      ret {| server_address := address; socket := PlainSocket |}
  end.

Inductive protocol : Type := PROTOCOL_TLS_SERVER.

Record SSLContext_obj : Type := mkContext {
  ctx_protocol : protocol;
  ctx_chain : option (string * string)
}.

(** [ssl.SSLContext(protocol)] *)
Definition SSLContext (p : protocol) : Proc SSLContext_obj :=
  ret {| ctx_protocol := p; ctx_chain := None |}.

(** [open] of a file for reading *)
Definition read_file (p : string) : exn + string :=
  match stat w p with
  | None => inl (FileNotFoundError p)
  | Some (Dir _) => inl (IsADirectoryError p)
  | Some (File c) => if w_access w p then inr c else inl (PermissionError p)
  end.

(** [context.load_cert_chain(certfile, keyfile)]: both files are read
    and the key has to match the certificate. *)
Definition load_cert_chain (context : SSLContext_obj) (certfile keyfile : string)
  : Proc SSLContext_obj :=
  match read_file certfile with
  | inl e => raise e
  | inr cert =>
      match read_file keyfile with
      | inl e => raise e
      | inr key =>
          if w_valid_pair w cert key then
            record_event (EvLoadCert certfile keyfile) ;;
            ret {| ctx_protocol := ctx_protocol context;
                   ctx_chain := Some (certfile, keyfile) |}
          else raise SSLError
      end
  end.

(** [context.wrap_socket(sock, server_side=True)] on a listening socket:
    no handshake takes place yet. *)
Definition wrap_socket (context : SSLContext_obj) (sock : socket_kind) : Proc socket_kind :=
  record_event EvWrapSocket ;; ret TlsSocket.

(** Can [sys.stdout] encode [text]: every encoding takes the characters
    below 128. *)
Definition encodable (text : string) : bool :=
  all_chars (fun a => Nat.ltb (nat_of_ascii a) 128 || w_stdout_encodes w a) text.

(** [print(text)] on [sys.stdout], [done] being the event that records
    the call. Without a [sys.stdout] the call returns and nothing is
    printed; otherwise the text is encoded, and written at once unless
    the stream is buffered. *)
Definition print_stdout (done : event) (text : string) : Proc unit :=
  match w_stdout w with
  | Absent => record_event done
  | WriteThrough accepts =>
      if encodable text then
        if accepts then record_event done else raise (OSError "stdout")
      else raise (UnicodeEncodeError text)
  | Buffered =>
      if encodable text then record_event done else raise (UnicodeEncodeError text)
  end.

(** [print(line)] *)
Definition print (line : string) : Proc unit := print_stdout (EvStdout line) line.

(** *** Serving one request *)

(** [sys.stderr.write(line)], as [log_message] calls it. *)
Definition stderr_write (line : string) : Proc unit :=
  match w_stderr w with
  | NoStderr => raise (AttributeError "'NoneType' object has no attribute 'write'")
  | Stderr accepts =>
      if accepts then record_event (EvStderr line) else raise (OSError "stderr")
  end.

(** [send_response(code)] logs the request before any header is sent. *)
Definition send_response (r : request) (code : string) : Proc unit :=
  stderr_write (http_server.log_request r code).

Definition send_error (r : request) (code message : string) : Proc unit :=
  stderr_write (http_server.log_error r code message) ;;
  send_response r code ;;
  record_event (EvRespond (ErrorPage code)).

(** The tail of [send_head]: open [p] and announce it. [open] raises
    [ValueError] for a name with a null character, which the
    [except OSError] around it does not catch; a file that is not newer
    than the date of [If-Modified-Since] is answered with 304. *)
Definition send_file (r : request) (p : string) : Proc (option response) :=
  if pystr.endswith "/" p then
    send_error r "404" "File not found" ;; ret None
  else if pystr.contains nul p then raise (ValueError "embedded null byte")
  else
    match read_file p with
    | inl _ => send_error r "404" "File not found" ;; ret None
    | inr content =>
        if match if_modified_since r with
           | Some since => w_unmodified w p since
           | None => false
           end
        then
          send_response r "304" ;;
          record_event (EvRespond (HeadersOnly "304")) ;;
          ret None
        else send_response r "200" ;; ret (Some (FileContent p content))
    end.

(** [list_directory(p)] *)
Definition list_directory (r : request) (p : string) : Proc (option response) :=
  match stat w p with
  | Some (Dir names) =>
      if w_access w p then send_response r "200" ;; ret (Some (Listing p names))
      else send_error r "404" "No permission to list directory" ;; ret None
  | _ => send_error r "404" "No permission to list directory" ;; ret None
  end.

(** [send_head()]: the headers are sent, and what [do_GET] has to copy
    to the client is returned. The path component of the request target
    is taken to be the target up to its first [?] or [#]. *)
Definition send_head (r : request) : Proc (option response) :=
  directory <- os_getcwd ;;
  let p := http_server.translate_path directory (path r) in
  if isdir w p then
    if negb (pystr.endswith "/" (pystr.before "#" (pystr.before "?" (path r)))) then
      send_response r "301" ;;
      record_event (EvRespond (HeadersOnly "301")) ;;
      ret None
    else
      match find (isfile w) [posixpath.join p "index.html"; posixpath.join p "index.htm"] with
      | Some index => send_file r index
      | None => list_directory r p
      end
  else send_file r p.

Definition do_GET (r : request) : Proc unit :=
  f <- send_head r ;;
  match f with
  | Some body => record_event (EvRespond body)
  | None => ret tt
  end.

Definition do_HEAD (r : request) : Proc unit :=
  f <- send_head r ;;
  match f with
  | Some _ => record_event (EvRespond (HeadersOnly "200"))
  | None => ret tt
  end.

(** [handle_one_request] once the request line is parsed: the method
    [do_<command>] is looked up on the handler. *)
Definition handle_one_request (r : request) : Proc unit :=
  if command r =? "GET" then do_GET r
  else if command r =? "HEAD" then do_HEAD r
  else send_error r "501" ("Unsupported method ('" ++ command r ++ "')").

(** [print(text, file=sys.stderr)]: with [sys.stderr] being [None] the
    text goes to [sys.stdout]. *)
Definition report (text : string) : Proc unit :=
  match w_stderr w with
  | NoStderr => print_stdout (EvReport text) text
  | Stderr accepts =>
      if accepts then record_event (EvReport text) else raise (OSError "stderr")
  end.

Definition rule : string := "----------------------------------------".

(** [handle_error]: a rule, the peer, the traceback and a rule again. It
    runs inside the [except] block, so what it raises is not caught. *)
Definition handle_error (peer : string) (e : exn) : Proc unit :=
  report rule ;;
  report ("Exception occurred during processing of request from " ++ peer) ;;
  report (w_traceback w e) ;;
  report rule.

(** [_handle_request_noblock] together with the [select] before it. *)
Definition handle_request_noblock (c : conn_event) : Proc unit :=
  match c with
  | Idle => ret tt
  | AcceptFailed => ret tt
  | Request r => try_except (handle_one_request r) (handle_error (peer r))
  | Aborted peer e => handle_error peer e
  | Signal => fun s => (Killed, s)
  end.

(** [serve_forever()]: [while not self.__shutdown_request: ...]. The
    loop has no bound; [fuel] is the number of turns that are observed,
    after which the process is reported as still [Serving]. An exception
    of a turn leaves the loop, and the script with it. *)
Fixpoint serve_forever (fuel : nat) (httpd : HTTPServer_obj) (turn : nat) : Proc unit :=
  match fuel with
  | O => fun s => (Serving, s)
  | S fuel' =>
      fun s =>
        if shutdown_request s then (Returned tt, s)
        else (leaving (handle_request_noblock (w_conn w turn)) ;;
              serve_forever fuel' httpd (S turn)) s
  end.

(** ** The script *)

Definition main (argv : list string) (__file__ : string) (fuel : nat) : Proc unit :=
  let serve_dir := if Nat.ltb 1 (length argv) then nth 1 argv "" else "." in
  serve_dir <- os_path_abspath serve_dir ;;

  os_chdir serve_dir ;;

  let server_address := ("0.0.0.0", 8443%Z) in
  httpd <- HTTPServer server_address ;;

  script_dir <- (p <- os_path_abspath __file__ ;; ret (posixpath.dirname p)) ;;
  let cert_file := posixpath.join script_dir "cert.pem" in
  let key_file := posixpath.join script_dir "key.pem" in

  context <- SSLContext PROTOCOL_TLS_SERVER ;;
  context <- load_cert_chain context cert_file key_file ;;
  sock <- wrap_socket context (socket httpd) ;;
  let httpd := {| server_address := server_address; socket := sock |} in

  print ("Serving HTTPS from: " ++ serve_dir) ;;
  print ("Server running at https://" ++ fst server_address ++ ":"
         ++ pystr.of_Z (snd server_address) ++ "/") ;;
  serve_forever fuel httpd 0.

End Script.

Definition run (w : World) (argv : list string) (__file__ : string) (fuel : nat)
  : outcome unit * proc :=
  main w argv __file__ fuel (init w).

(** ** Observations on a trace *)

(** The lines of the [print] calls of the script that have returned. *)
Definition stdout_of (t : list event) : list string :=
  flat_map (fun e => match e with EvStdout l => [l] | _ => [] end) t.

(** The lines of the request log. *)
Definition stderr_of (t : list event) : list string :=
  flat_map (fun e => match e with EvStderr l => [l] | _ => [] end) t.







(** [strip_prefix pre s]: [s] without its prefix [pre], if it has it. *)
Fixpoint strip_prefix (pre s : string) : option string :=
  match pre, s with
  | EmptyString, _ => Some s
  | String a pre', String b s' => if Ascii.eqb a b then strip_prefix pre' s' else None
  | String _ _, EmptyString => None
  end.

(** [inside root p]: [p] is [root] followed by whole path components none
    of which is the parent directory. *)
Definition inside (root p : string) : bool :=
  match strip_prefix root p with
  | None => false
  | Some rest =>
      negb (existsb (String.eqb posixpath.pardir) (pystr.split "/" rest))
      && ((rest =? "") || (root =? "") || pystr.endswith "/" root
          || pystr.startswith "/" rest)
  end.

(** ** Predicates and states the statements below speak of *)

Definition insideP (root p : string) : Prop :=
  exists rest,
    p = root ++ rest
    /\ ~ In posixpath.pardir (pystr.split "/" rest)
    /\ (rest = "" \/ root = "" \/ pystr.endswith "/" root = true
        \/ pystr.startswith "/" rest = true).

Definition extend (s : proc) (extra : list event) : proc :=
  {| cwd := cwd s; shutdown_request := shutdown_request s;
     trace := (trace s ++ extra)%list |}.

(** What a response may show of the file system when the working
    directory is [D]: a file or a directory inside [D], and for a file the
    bytes the file system holds under that name. *)
Definition served_from (w : World) (D : string) (r : response) : Prop :=
  match r with
  | FileContent file content => insideP D file /\ read_file w file = inr content
  | Listing dir _ => insideP D dir
  | HeadersOnly _ => True
  | ErrorPage _ => True
  end.

Definition request_event (w : World) (D : string) (e : event) : Prop :=
  match e with
  | EvStderr _ => True
  | EvReport _ => True
  | EvRespond r => served_from w D r
  | _ => False
  end.

(** [serves w D c Q]: started in directory [D], [c] returns a value
    satisfying [Q] or raises an exception; it leaves directory and flag
    alone and adds only request events to the trace. *)
Definition serves (w : World) (D : string) {A} (c : Proc A) (Q : A -> Prop) : Prop :=
  forall s, cwd s = D ->
    exists o extra,
      c s = (o, extend s extra)
      /\ Forall (request_event w D) extra
      /\ match o with
         | Returned a => Q a
         | Raised _ => True
         | _ => False
         end.

(** [sys.stderr] is there and takes what is written to it. *)
Definition stderr_works (w : World) : bool :=
  match w_stderr w with
  | Stderr accepts => accepts
  | NoStderr => false
  end.

(** [print(text)] of the script does not raise. *)
Definition printable (w : World) (text : string) : bool :=
  match w_stdout w with
  | Absent => true
  | WriteThrough accepts => encodable w text && accepts
  | Buffered => encodable w text
  end.

(** A connection, as opposed to an idle turn, a failed accept or a signal. *)
Definition connected (c : conn_event) : Prop :=
  match c with
  | Request _ => True
  | Aborted _ _ => True
  | _ => False
  end.

(** What [send_head] hands to [do_GET]. *)
Definition body_from (w : World) (D : string) (f : option response) : Prop :=
  match f with
  | Some body => served_from w D body
  | None => True
  end.

(** The process after [os.chdir(root)] with [t] done so far. *)
Definition at_stage (w : World) (root : string) (t : list event) : proc :=
  {| cwd := w_realpath w root; shutdown_request := false; trace := t |}.

Definition bound_events (root : string) : list event :=
  [EvChdir root; EvBind "0.0.0.0" 8443; EvListen].

Definition status_lines (root : string) : list string :=
  ["Serving HTTPS from: " ++ root; "Server running at https://0.0.0.0:8443/"].

Definition started_events (root certfile keyfile : string) : list event :=
  (bound_events root
   ++ [EvLoadCert certfile keyfile; EvWrapSocket]
   ++ map EvStdout (status_lines root))%list.

(** The directory the script resolves from its arguments, and the
    credential files it looks for once it has entered that directory. *)
Definition serve_root (w : World) (argv : list string) : string :=
  posixpath.abspath_from (w_cwd w) (nth 1 argv ".").

Definition script_dir_of (w : World) (argv : list string) (__file__ : string) : string :=
  posixpath.dirname (posixpath.abspath_from (w_realpath w (serve_root w argv)) __file__).

Definition cert_file_of (w : World) (argv : list string) (__file__ : string) : string :=
  posixpath.join (script_dir_of w argv __file__) "cert.pem".

Definition key_file_of (w : World) (argv : list string) (__file__ : string) : string :=
  posixpath.join (script_dir_of w argv __file__) "key.pem".

Definition fresh_context : SSLContext_obj :=
  {| ctx_protocol := PROTOCOL_TLS_SERVER; ctx_chain := None |}.

Definition tls_server : HTTPServer_obj :=
  {| server_address := ("0.0.0.0", 8443%Z); socket := TlsSocket |}.

(** The state in which the serve loop is entered. *)
Definition started (w : World) (argv : list string) (__file__ : string) : proc :=
  at_stage w (serve_root w argv)
    (started_events (serve_root w argv)
       (cert_file_of w argv __file__) (key_file_of w argv __file__)).

(** The five ways a run can go, whatever the number of observed turns. *)
Inductive startup (w : World) (argv : list string) (__file__ : string) : Prop :=
| ChdirFails e :
    os_chdir w (serve_root w argv) (init w) = (Raised e, init w) ->
    (forall fuel, run w argv __file__ fuel = (Raised e, init w)) ->
    startup w argv __file__
| BindFails e :
    os_chdir w (serve_root w argv) (init w)
    = (Returned tt, at_stage w (serve_root w argv) [EvChdir (serve_root w argv)]) ->
    w_bind w "0.0.0.0" 8443%Z = Some e ->
    (forall fuel, run w argv __file__ fuel
                  = (Raised e, at_stage w (serve_root w argv) [EvChdir (serve_root w argv)])) ->
    startup w argv __file__
| CertFails e :
    os_chdir w (serve_root w argv) (init w)
    = (Returned tt, at_stage w (serve_root w argv) [EvChdir (serve_root w argv)]) ->
    w_bind w "0.0.0.0" 8443%Z = None ->
    load_cert_chain w fresh_context (cert_file_of w argv __file__) (key_file_of w argv __file__)
      (at_stage w (serve_root w argv) (bound_events (serve_root w argv)))
    = (Raised e, at_stage w (serve_root w argv) (bound_events (serve_root w argv))) ->
    (forall fuel, run w argv __file__ fuel
                  = (Raised e, at_stage w (serve_root w argv) (bound_events (serve_root w argv)))) ->
    startup w argv __file__
| PrintFails context e :
    os_chdir w (serve_root w argv) (init w)
    = (Returned tt, at_stage w (serve_root w argv) [EvChdir (serve_root w argv)]) ->
    w_bind w "0.0.0.0" 8443%Z = None ->
    load_cert_chain w fresh_context (cert_file_of w argv __file__) (key_file_of w argv __file__)
      (at_stage w (serve_root w argv) (bound_events (serve_root w argv)))
    = (Returned context,
       emit (EvLoadCert (cert_file_of w argv __file__) (key_file_of w argv __file__))
         (at_stage w (serve_root w argv) (bound_events (serve_root w argv)))) ->
    printable w ("Serving HTTPS from: " ++ serve_root w argv) = false ->
    (forall fuel, run w argv __file__ fuel
                  = (Raised e,
                     at_stage w (serve_root w argv)
                       (bound_events (serve_root w argv)
                        ++ [EvLoadCert (cert_file_of w argv __file__) (key_file_of w argv __file__);
                            EvWrapSocket]))) ->
    startup w argv __file__
| Starts context :
    os_chdir w (serve_root w argv) (init w)
    = (Returned tt, at_stage w (serve_root w argv) [EvChdir (serve_root w argv)]) ->
    w_bind w "0.0.0.0" 8443%Z = None ->
    load_cert_chain w fresh_context (cert_file_of w argv __file__) (key_file_of w argv __file__)
      (at_stage w (serve_root w argv) (bound_events (serve_root w argv)))
    = (Returned context,
       emit (EvLoadCert (cert_file_of w argv __file__) (key_file_of w argv __file__))
         (at_stage w (serve_root w argv) (bound_events (serve_root w argv)))) ->
    printable w ("Serving HTTPS from: " ++ serve_root w argv) = true ->
    (forall fuel, run w argv __file__ fuel
                  = serve_forever w fuel tls_server 0 (started w argv __file__)) ->
    startup w argv __file__.

(** A directory to serve under [/srv/www] and the repository checked out
    under [/opt/gfx], with or without the credential pair. *)
Definition demo_fs (with_cert : bool) (p : string) : option fs_node :=
  if p =? "/srv/www" then Some (Dir ["hello.txt"])
  else if p =? "/srv/www/hello.txt" then Some (File "hi")
  else if p =? "/opt/gfx" then Some (Dir ["scripts"])
  else if p =? "/opt/gfx/scripts" then Some (Dir ["https_server.py"; "cert.pem"; "key.pem"])
  else if p =? "/opt/gfx/scripts/cert.pem" then (if with_cert then Some (File "CERT") else None)
  else if p =? "/opt/gfx/scripts/key.pem" then (if with_cert then Some (File "KEY") else None)
  else if p =? "/etc" then Some (Dir ["passwd"])
  else if p =? "/etc/passwd" then Some (File "root:x:0:0")
  else None.

Definition demo_request (target : string) : request :=
  {| client := "10.0.0.7"; peer := "('10.0.0.7', 50000)";
     date := "04/Nov/2026 10:00:00";
     command := "GET"; path := target; version := "HTTP/1.1";
     if_modified_since := None |}.

Definition demo_conn (turn : nat) : conn_event :=
  match turn with
  | 0 => Request (demo_request "/hello.txt")
  | 1 => Request (demo_request "/../../etc/passwd")
  | 2 => AcceptFailed
  | 3 => Signal
  | _ => Idle
  end.

Definition demo_world (invoked_from : string) (with_cert : bool) : World :=
  {| w_cwd := invoked_from;
     w_fs := demo_fs with_cert;
     w_access := fun _ => true;
     w_realpath := fun p => p;
     w_bind := fun _ _ => None;
     w_valid_pair := fun c k => (c =? "CERT") && (k =? "KEY");
     w_conn := demo_conn;
     w_stdout := WriteThrough true;
     w_stdout_encodes := fun _ => true;
     w_stderr := Stderr true;
     w_unmodified := fun _ _ => false;
     w_traceback := fun _ => "Traceback (most recent call last):" |}.

(** [os.chdir(d)] can succeed: [d] is a directory the process may enter. *)
Definition enterable (w : World) (d : string) : bool :=
  match stat w d with
  | Some (Dir _) => w_access w d
  | _ => false
  end.

(** Both credential files can be read and the key matches the certificate. *)
Definition credentials_ok (w : World) (certfile keyfile : string) : bool :=
  match read_file w certfile, read_file w keyfile with
  | inr cert, inr key => w_valid_pair w cert key
  | _, _ => false
  end.

(** The start-up succeeds: observed for no turn at all, the process is
    found inside the serve loop. *)
Definition starts (w : World) (argv : list string) (__file__ : string) : Prop :=
  fst (run w argv __file__ 0) = Serving.

(** The same world with the script invoked from another directory. *)
Definition invoked_from (w : World) (dir : string) : World :=
  {| w_cwd := dir;
     w_fs := w_fs w;
     w_access := w_access w;
     w_realpath := w_realpath w;
     w_bind := w_bind w;
     w_valid_pair := w_valid_pair w;
     w_conn := w_conn w;
     w_stdout := w_stdout w;
     w_stdout_encodes := w_stdout_encodes w;
     w_stderr := w_stderr w;
     w_unmodified := w_unmodified w;
     w_traceback := w_traceback w |}.



(** The characters [dirname] keeps when it strips trailing separators. *)
Definition not_sep (a : ascii) : bool := negb (Ascii.eqb a posixpath.sep).

(** A path component [normpath] keeps as a name. *)
Definition plain_comp (comp : string) : Prop :=
  comp <> "" /\ comp <> posixpath.curdir /\ comp <> posixpath.pardir.

(** The stack of [posixpath.collapse], its last element first: names on
    top of parent-directory entries, which only a relative path keeps. *)
Definition stack_shape (k : nat) (acc : list string) : Prop :=
  exists names dots,
    acc = (rev names ++ dots)%list
    /\ Forall (eq posixpath.pardir) dots
    /\ (k <> 0 -> dots = [])
    /\ Forall plain_comp names.

(** A character of a file name that needs no quoting in a request path
    and is not touched by [translate_path]. *)
Definition url_char (a : ascii) : bool :=
  negb (pystr.isspace a)
  && negb (Ascii.eqb a "/") && negb (Ascii.eqb a "?")
  && negb (Ascii.eqb a "#") && negb (Ascii.eqb a "%").

(** A file name made of such characters, other than [.] and [..]. *)
Definition url_name (n : string) : bool :=
  negb (n =? "") && negb (n =? posixpath.curdir) && negb (n =? posixpath.pardir)
  && all_chars url_char n.

(** ** Strings *)

Lemma append_nil_r (s : string) : s ++ "" = s.
Proof. induction s as [|a s IH]; simpl; [reflexivity | now rewrite IH]. Qed.

Lemma append_assoc (a b c : string) : (a ++ b) ++ c = a ++ (b ++ c).
Proof. induction a as [|x a IH]; simpl; [reflexivity | now rewrite IH]. Qed.

Lemma strip_prefix_app (pre rest : string) : strip_prefix pre (pre ++ rest) = Some rest.
Proof.
  induction pre as [|a pre IH]; simpl; [reflexivity |].
  now rewrite Ascii.eqb_refl.
Qed.

Lemma strip_prefix_inv (pre s rest : string) :
  strip_prefix pre s = Some rest -> s = pre ++ rest.
Proof.
  revert s. induction pre as [|a pre IH]; intros s H; simpl in *.
  - now inversion H.
  - destruct s as [|b s]; [discriminate |].
    destruct (Ascii.eqb_spec a b) as [->|]; [| discriminate].
    now rewrite (IH _ H).
Qed.

Lemma split_nonempty (c : ascii) (s : string) : pystr.split c s <> [].
Proof.
  destruct s as [|a s]; simpl; [discriminate |].
  destruct (Ascii.eqb a c); [discriminate |].
  destruct (pystr.split c s); discriminate.
Qed.

Lemma split_app_sep (c : ascii) (a b : string) :
  pystr.split c (a ++ String c b) = (pystr.split c a ++ pystr.split c b)%list.
Proof.
  induction a as [|x a IH]; simpl.
  - now rewrite Ascii.eqb_refl.
  - destruct (Ascii.eqb x c); rewrite IH; [reflexivity |].
    destruct (pystr.split c a) eqn:E; [now apply split_nonempty in E | reflexivity].
Qed.

Lemma split_no_sep (c : ascii) (s : string) :
  pystr.contains c s = false -> pystr.split c s = [s].
Proof.
  induction s as [|a s IH]; simpl; intros H; [reflexivity |].
  apply orb_false_iff in H as [Ha Hs].
  now rewrite Ha, (IH Hs).
Qed.

Lemma endswith_inv (c : ascii) (s : string) :
  pystr.endswith c s = true -> exists r, s = r ++ String c "".
Proof.
  induction s as [|a s IH]; simpl; intros H; [discriminate |].
  destruct s as [|b s].
  - apply Ascii.eqb_eq in H as ->. now exists "".
  - destruct (IH H) as [r Hr]. exists (String a r). simpl. now rewrite Hr.
Qed.

Lemma startswith_app (c : ascii) (s t : string) :
  pystr.startswith (String c "") s = true ->
  pystr.startswith (String c "") (s ++ t) = true.
Proof.
  destruct s as [|a s]; simpl; [discriminate |].
  now rewrite !andb_true_r.
Qed.

Lemma endswith_app_r (c : ascii) (a b : string) :
  b <> "" -> pystr.endswith c (a ++ b) = pystr.endswith c b.
Proof.
  intros Hb. induction a as [|x a IH]; simpl; [reflexivity |].
  destruct (a ++ b) eqn:E; [| exact IH].
  destruct a; simpl in E; [contradiction | discriminate].
Qed.

Lemma startswith_contains (c : ascii) (s : string) :
  pystr.startswith (String c "") s = true -> pystr.contains c s = true.
Proof.
  destruct s as [|a s]; simpl; [discriminate |].
  rewrite andb_true_r, Ascii.eqb_sym. now intros ->.
Qed.

Lemma head_empty_no_sep (s : string) :
  posixpath.head s = "" -> pystr.contains posixpath.sep s = false.
Proof.
  destruct s as [|a s]; [reflexivity |].
  unfold posixpath.head; fold posixpath.head.
  destruct (pystr.contains posixpath.sep (String a s)); [discriminate | reflexivity].
Qed.

Lemma dirname_empty_no_sep (s : string) :
  posixpath.dirname s = "" -> pystr.contains posixpath.sep s = false.
Proof.
  unfold posixpath.dirname. intros H. apply head_empty_no_sep.
  destruct (String.eqb_spec
              (pystr.rstrip (fun a => negb (Ascii.eqb a posixpath.sep)) (posixpath.head s)) "")
    as [_|Hne]; [exact H | contradiction].
Qed.

(** ** Staying inside a directory *)

Lemma inside_iff (root p : string) : inside root p = true <-> insideP root p.
Proof.
  unfold inside, insideP. split.
  - destruct (strip_prefix root p) as [rest|] eqn:E; [| discriminate].
    intros H. apply andb_true_iff in H as [Hno Hb].
    exists rest. split; [now apply strip_prefix_inv | split].
    + intros Hin. apply negb_true_iff in Hno.
      assert (existsb (String.eqb posixpath.pardir) (pystr.split "/" rest) = true) as Ht.
      { apply existsb_exists. exists posixpath.pardir. split; [exact Hin | apply String.eqb_refl]. }
      congruence.
    + repeat (apply orb_true_iff in Hb as [Hb|Hb]); auto.
      * left. now apply String.eqb_eq.
      * right. left. now apply String.eqb_eq.
  - intros (rest & -> & Hno & Hb). rewrite strip_prefix_app.
    apply andb_true_iff. split.
    + apply negb_true_iff. apply not_true_is_false. intros Ht.
      apply existsb_exists in Ht as (x & Hin & Hx). apply String.eqb_eq in Hx. now subst x.
    + destruct Hb as [->|[->|[H|H]]]; try rewrite H; try reflexivity;
        rewrite ?orb_true_r; reflexivity.
Qed.

Lemma insideP_refl (root : string) : insideP root root.
Proof.
  exists "". rewrite append_nil_r. repeat split; [| now left].
  simpl. intros [H|[]]. discriminate.
Qed.

Lemma insideP_slash (root p : string) : insideP root p -> insideP root (p ++ "/").
Proof.
  intros (rest & -> & Hno & Hb). exists (rest ++ "/"). split; [apply append_assoc | split].
  - rewrite split_app_sep. intros Hin. apply in_app_or in Hin as [Hin|Hin]; [tauto |].
    simpl in Hin. destruct Hin as [Hin|[]]. discriminate.
  - destruct Hb as [->|[H|[H|H]]]; auto.
    right. right. right. now apply startswith_app.
Qed.

Lemma insideP_join (root p name : string) :
  insideP root p ->
  pystr.contains "/" name = false -> name <> posixpath.pardir ->
  insideP root (posixpath.join p name).
Proof.
  intros (rest & -> & Hno & Hb) Hsep Hpar. unfold posixpath.join.
  destruct (pystr.startswith "/" name) eqn:Eabs.
  { apply startswith_contains in Eabs. congruence. }
  assert (forall r, ~ In posixpath.pardir (pystr.split "/" r) ->
                    ~ In posixpath.pardir (pystr.split "/" (r ++ String "/" name))) as Hadd.
  { intros r Hr. rewrite split_app_sep, (split_no_sep _ _ Hsep).
    intros Hin. apply in_app_or in Hin as [Hin|[Hin|[]]]; [tauto | congruence]. }
  destruct ((root ++ rest =? "") || pystr.endswith posixpath.sep (root ++ rest)) eqn:Ecat.
  - apply orb_true_iff in Ecat as [Ecat|Ecat].
    + apply String.eqb_eq in Ecat.
      assert (root = "" /\ rest = "") as [-> ->].
      { destruct root; [simpl in Ecat; split; [reflexivity | exact Ecat] | discriminate]. }
      exists name. repeat split; [| auto].
      rewrite (split_no_sep _ _ Hsep). intros [Hin|[]]. congruence.
    + destruct rest as [|a rest'].
      * rewrite append_nil_r in *. exists name. repeat split; [| auto].
        rewrite (split_no_sep _ _ Hsep). intros [Hin|[]]. congruence.
      * rewrite endswith_app_r in Ecat by discriminate.
        apply endswith_inv in Ecat as (r0 & Hr0). rewrite Hr0 in *.
        exists ((r0 ++ "/") ++ name). split; [now rewrite append_assoc | split].
        -- rewrite append_assoc. simpl. apply Hadd. intros Hin. apply Hno.
           rewrite split_app_sep. apply in_or_app. now left.
        -- destruct Hb as [Hb|[Hb|[Hb|Hb]]]; auto.
           ++ destruct r0; discriminate.
           ++ right. right. right. now apply startswith_app.
  - exists (rest ++ String "/" name). split; [now rewrite append_assoc | split].
    + now apply Hadd.
    + destruct Hb as [->|[H|[H|H]]]; auto.
      right. right. right. now apply startswith_app.
Qed.

Lemma add_word_inside (root p word : string) :
  insideP root p -> insideP root (http_server.add_word p word).
Proof.
  intros H. unfold http_server.add_word.
  destruct (negb (posixpath.dirname word =? "")
            || (word =? posixpath.curdir) || (word =? posixpath.pardir)) eqn:E; [exact H |].
  apply orb_false_iff in E as [E Hpar]. apply orb_false_iff in E as [Hdir _].
  apply negb_false_iff, String.eqb_eq in Hdir. apply String.eqb_neq in Hpar.
  apply insideP_join; [exact H | now apply dirname_empty_no_sep | exact Hpar].
Qed.

Lemma fold_add_word_inside (root : string) (words : list string) (p : string) :
  insideP root p -> insideP root (fold_left http_server.add_word words p).
Proof.
  revert p. induction words as [|word words IH]; intros p H; simpl; [exact H |].
  apply IH. now apply add_word_inside.
Qed.

Lemma translate_path_inside (directory target : string) :
  insideP directory (http_server.translate_path directory target).
Proof.
  unfold http_server.translate_path.
  match goal with |- context [if ?b then _ else _] => destruct b end.
  - apply insideP_slash, fold_add_word_inside, insideP_refl.
  - apply fold_add_word_inside, insideP_refl.
Qed.

(** ** A small program logic for the calls that only add to the trace *)

Lemma extend_nil (s : proc) : extend s [] = s.
Proof. destruct s. unfold extend. simpl. now rewrite app_nil_r. Qed.

Lemma extend_extend (s : proc) (a b : list event) :
  extend (extend s a) b = extend s (a ++ b)%list.
Proof. unfold extend. simpl. now rewrite app_assoc. Qed.

Section Serves.

Variable w : World.
Variable D : string.

Lemma serves_ret {A} (a : A) (Q : A -> Prop) : Q a -> serves w D (ret a) Q.
Proof.
  intros HQ s _. exists (Returned a), []. rewrite extend_nil. repeat split; auto.
Qed.

Lemma serves_raise {A} (e : exn) (Q : A -> Prop) : serves w D (raise e) Q.
Proof.
  intros s _. exists (Raised e), []. rewrite extend_nil. repeat split; auto.
Qed.

Lemma serves_bind {A B} (c : Proc A) (k : A -> Proc B) (Q : A -> Prop) (R : B -> Prop) :
  serves w D c Q -> (forall a, Q a -> serves w D (k a) R) -> serves w D (bind c k) R.
Proof.
  intros Hc Hk s Hs. destruct (Hc s Hs) as (o & e1 & E1 & F1 & Ho).
  destruct o as [a|e| | |e]; try contradiction.
  - destruct (Hk a Ho (extend s e1) Hs) as (o2 & e2 & E2 & F2 & Ho2).
    exists o2, (e1 ++ e2)%list. unfold bind. rewrite E1, E2, extend_extend.
    repeat split; auto. apply Forall_app. now split.
  - exists (Raised e), e1. unfold bind. rewrite E1. repeat split; auto.
Qed.

Lemma serves_try_except {A} (c : Proc A) (handler : exn -> Proc A) (Q : A -> Prop) :
  serves w D c Q -> (forall e, serves w D (handler e) Q) ->
  serves w D (try_except c handler) Q.
Proof.
  intros Hc Hh s Hs. destruct (Hc s Hs) as (o & e1 & E1 & F1 & Ho).
  destruct o as [a|e| | |e]; try contradiction.
  - exists (Returned a), e1. unfold try_except. rewrite E1. repeat split; auto.
  - destruct (Hh e (extend s e1) Hs) as (o2 & e2 & E2 & F2 & Ho2).
    exists o2, (e1 ++ e2)%list. unfold try_except. rewrite E1, E2, extend_extend.
    repeat split; auto. apply Forall_app. now split.
Qed.

Lemma serves_record (e : event) :
  request_event w D e -> serves w D (record_event e) (fun _ => True).
Proof.
  intros He s _. exists (Returned tt), [e]. repeat split; auto.
Qed.

Lemma serves_stderr_write (line : string) :
  serves w D (stderr_write w line) (fun _ => True).
Proof.
  unfold stderr_write. destruct (w_stderr w) as [|[|]];
    try apply serves_raise. apply serves_record. exact I.
Qed.

Lemma serves_send_response (r : request) (code : string) :
  serves w D (send_response w r code) (fun _ => True).
Proof. apply serves_stderr_write. Qed.

Lemma serves_send_error (r : request) (code message : string) :
  serves w D (send_error w r code message) (fun _ => True).
Proof.
  unfold send_error.
  eapply serves_bind; [apply serves_stderr_write | intros _ _].
  eapply serves_bind; [apply serves_send_response | intros _ _].
  apply serves_record. exact I.
Qed.

Lemma serves_refuse (r : request) (code message : string) :
  serves w D (send_error w r code message ;; ret None) (body_from w D).
Proof.
  eapply serves_bind; [apply serves_send_error | intros _ _].
  now apply serves_ret.
Qed.

Lemma serves_send_file (r : request) (p : string) :
  insideP D p -> serves w D (send_file w r p) (body_from w D).
Proof.
  intros Hp. unfold send_file.
  destruct (pystr.endswith "/" p); [apply serves_refuse |].
  destruct (pystr.contains nul p); [apply serves_raise |].
  destruct (read_file w p) as [e|content] eqn:E; [apply serves_refuse |].
  destruct (match if_modified_since r with
            | Some since => w_unmodified w p since
            | None => false
            end).
  - eapply serves_bind; [apply serves_send_response | intros _ _].
    eapply serves_bind; [apply serves_record; exact I | intros _ _].
    now apply serves_ret.
  - eapply serves_bind; [apply serves_send_response | intros _ _].
    apply serves_ret. simpl. auto.
Qed.

Lemma serves_list_directory (r : request) (p : string) :
  insideP D p -> serves w D (list_directory w r p) (body_from w D).
Proof.
  intros Hp. unfold list_directory.
  destruct (stat w p) as [[c|names]|]; try apply serves_refuse.
  destruct (w_access w p); [| apply serves_refuse].
  eapply serves_bind; [apply serves_send_response | intros _ _].
  now apply serves_ret.
Qed.

Lemma serves_send_head (r : request) : serves w D (send_head w r) (body_from w D).
Proof.
  intros s Hs. unfold send_head, bind at 1, os_getcwd. rewrite Hs.
  revert s Hs. change (serves w D
    (let p := http_server.translate_path D (path r) in
     if isdir w p then
       if negb (pystr.endswith "/" (pystr.before "#" (pystr.before "?" (path r)))) then
         send_response w r "301" ;; record_event (EvRespond (HeadersOnly "301")) ;; ret None
       else
         match find (isfile w) [posixpath.join p "index.html"; posixpath.join p "index.htm"] with
         | Some index => send_file w r index
         | None => list_directory w r p
         end
     else send_file w r p) (body_from w D)).
  pose proof (translate_path_inside D (path r)) as Hp.
  cbv zeta. set (p := http_server.translate_path D (path r)) in *.
  destruct (isdir w p); [| now apply serves_send_file].
  destruct (negb _).
  - eapply serves_bind; [apply serves_send_response | intros _ _].
    eapply serves_bind; [apply serves_record; exact I | intros _ _].
    now apply serves_ret.
  - destruct (find _ _) as [index|] eqn:E; [| now apply serves_list_directory].
    apply find_some in E as [Hin _]. apply serves_send_file.
    destruct Hin as [<-|[<-|[]]]; apply insideP_join; auto; discriminate.
Qed.

Lemma serves_handle_one_request (r : request) :
  serves w D (handle_one_request w r) (fun _ => True).
Proof.
  unfold handle_one_request.
  destruct (command r =? "GET").
  - unfold do_GET. eapply serves_bind; [apply serves_send_head |].
    intros [body|] Hb; [now apply serves_record | now apply serves_ret].
  - destruct (command r =? "HEAD"); [| apply serves_send_error].
    unfold do_HEAD. eapply serves_bind; [apply serves_send_head |].
    intros [body|] Hb; [apply serves_record; exact I | now apply serves_ret].
Qed.

Lemma serves_print_report (text : string) :
  serves w D (print_stdout w (EvReport text) text) (fun _ => True).
Proof.
  unfold print_stdout. destruct (w_stdout w) as [|[|]|];
    try destruct (encodable w text);
    try apply serves_raise; apply serves_record; exact I.
Qed.

Lemma serves_report (text : string) : serves w D (report w text) (fun _ => True).
Proof.
  unfold report. destruct (w_stderr w) as [|[|]].
  - apply serves_print_report.
  - apply serves_record. exact I.
  - apply serves_raise.
Qed.

Lemma serves_handle_error (peer : string) (e : exn) :
  serves w D (handle_error w peer e) (fun _ => True).
Proof.
  unfold handle_error.
  eapply serves_bind; [apply serves_report | intros _ _].
  eapply serves_bind; [apply serves_report | intros _ _].
  eapply serves_bind; [apply serves_report | intros _ _].
  apply serves_report.
Qed.

End Serves.

(** ** The serve loop *)

Section Loop.

Variable w : World.

(** With a working [sys.stderr] the error report goes through. *)
Lemma handle_error_works (peer : string) (e : exn) (s : proc) :
  stderr_works w = true ->
  handle_error w peer e s
  = (Returned tt,
     extend s [EvReport rule;
               EvReport ("Exception occurred during processing of request from " ++ peer);
               EvReport (w_traceback w e);
               EvReport rule]).
Proof.
  unfold stderr_works, handle_error, report. destruct (w_stderr w) as [|[|]]; try discriminate.
  intros _. unfold bind, record_event, emit, extend. cbn [cwd shutdown_request trace].
  now rewrite <- !app_assoc.
Qed.

Lemma handle_request_noblock_spec (c : conn_event) (s : proc) :
  exists extra,
    Forall (request_event w (cwd s)) extra
    /\ ((c <> Signal /\ handle_request_noblock w c s = (Returned tt, extend s extra))
        \/ (c = Signal /\ handle_request_noblock w c s = (Killed, extend s extra))
        \/ (exists e, handle_request_noblock w c s = (Raised e, extend s extra)
                      /\ stderr_works w = false /\ connected c)).
Proof.
  destruct c as [| |r|peer e|]; cbn [handle_request_noblock].
  - exists []. rewrite extend_nil. split; [constructor | left]. split; [discriminate | reflexivity].
  - exists []. rewrite extend_nil. split; [constructor | left]. split; [discriminate | reflexivity].
  - destruct (serves_try_except w (cwd s) _ _ _
                (serves_handle_one_request w (cwd s) r)
                (fun e => serves_handle_error w (cwd s) (peer r) e) s eq_refl)
      as (o & extra & E & F & Ho).
    exists extra. split; [exact F |].
    destruct o as [[]|e| | |e]; try contradiction.
    + left. split; [discriminate | exact E].
    + right. right. exists e. split; [exact E | split; [| exact I]].
      destruct (stderr_works w) eqn:Hw; [| reflexivity]. exfalso.
      unfold try_except in E.
      destruct (handle_one_request w r s) as [[[]|e'| | |e'] s1]; try discriminate.
      rewrite (handle_error_works _ _ _ Hw) in E. discriminate.
  - destruct (serves_handle_error w (cwd s) peer e s eq_refl) as (o & extra & E & F & Ho).
    exists extra. split; [exact F |].
    destruct o as [[]|e'| | |e']; try contradiction.
    + left. split; [discriminate | exact E].
    + right. right. exists e'. split; [exact E | split; [| exact I]].
      destruct (stderr_works w) eqn:Hw; [| reflexivity].
      rewrite (handle_error_works _ _ _ Hw) in E. discriminate.
  - exists []. rewrite extend_nil. split; [constructor | right; left]. split; reflexivity.
Qed.

(** The loop never returns: after any number of turns the process is still
    serving, unless a signal arrived in one of the turns, or the report of
    a failed connection could not be written. *)
Lemma serve_forever_spec (fuel : nat) (httpd : HTTPServer_obj) (turn : nat) (s : proc) :
  shutdown_request s = false ->
  exists extra,
    Forall (request_event w (cwd s)) extra
    /\ ((serve_forever w fuel httpd turn s = (Serving, extend s extra)
         /\ forall j, turn <= j < turn + fuel -> w_conn w j <> Signal)
        \/ (serve_forever w fuel httpd turn s = (Killed, extend s extra)
            /\ exists j, turn <= j < turn + fuel /\ w_conn w j = Signal)
        \/ (exists e, serve_forever w fuel httpd turn s = (Crashed e, extend s extra)
                      /\ stderr_works w = false
                      /\ exists j, turn <= j < turn + fuel /\ connected (w_conn w j))).
Proof.
  revert turn s. induction fuel as [|fuel IH]; intros turn s Hs.
  - exists []. rewrite extend_nil. split; [constructor | left].
    split; [reflexivity | intros j Hj; lia].
  - cbn [serve_forever]. rewrite Hs. unfold bind, leaving.
    destruct (handle_request_noblock_spec (w_conn w turn) s)
      as (e1 & F1 & [[Hc E1]|[[Hc E1]|(e & E1 & Hw & Hc)]]); rewrite E1.
    + destruct (IH (S turn) (extend s e1) Hs) as (e2 & F2 & H).
      exists (e1 ++ e2)%list. rewrite <- extend_extend.
      split; [apply Forall_app; now split |].
      destruct H as [[E2 Hno]|[[E2 (j & Hj & Hsig)]|(e & E2 & Hw & j & Hj & Hcon)]].
      * left. split; [exact E2 |].
        intros j Hj. destruct (Nat.eq_dec j turn) as [->|]; [exact Hc | apply Hno; lia].
      * right. left. split; [exact E2 |]. exists j. split; [lia | exact Hsig].
      * right. right. exists e. split; [exact E2 | split; [exact Hw |]].
        exists j. split; [lia | exact Hcon].
    + exists e1. split; [exact F1 | right; left]. split; [reflexivity |].
      exists turn. split; [lia | exact Hc].
    + exists e1. split; [exact F1 | right; right]. exists e.
      split; [reflexivity | split; [exact Hw |]]. exists turn. split; [lia | exact Hc].
Qed.

End Loop.

(** ** The start-up sequence *)

Lemma os_path_abspath_eq (p : string) (s : proc) :
  os_path_abspath p s = (Returned (posixpath.abspath_from (cwd s) p), s).
Proof.
  unfold os_path_abspath, posixpath.abspath_from.
  destruct (posixpath.isabs p); reflexivity.
Qed.

Lemma serve_dir_arg (argv : list string) :
  (if Nat.ltb 1 (length argv) then nth 1 argv "" else ".") = nth 1 argv ".".
Proof. destruct argv as [|a [|b l]]; reflexivity. Qed.

Lemma bind_returned {A B} (c : Proc A) (k : A -> Proc B) (s s' : proc) (a : A) :
  c s = (Returned a, s') -> bind c k s = k a s'.
Proof. intros E. unfold bind. now rewrite E. Qed.

Lemma bind_raised {A B} (c : Proc A) (k : A -> Proc B) (s s' : proc) (e : exn) :
  c s = (Raised e, s') -> bind c k s = (Raised e, s').
Proof. intros E. unfold bind. now rewrite E. Qed.

Lemma os_chdir_cases (w : World) (root : string) (s : proc) :
  (exists e, os_chdir w root s = (Raised e, s))
  \/ os_chdir w root s
     = (Returned tt,
        {| cwd := w_realpath w root; shutdown_request := shutdown_request s;
           trace := (trace s ++ [EvChdir root])%list |}).
Proof.
  unfold os_chdir.
  destruct (stat w root) as [[c|names]|]; [| destruct (w_access w root) |];
    try (left; eexists; reflexivity).
  right. reflexivity.
Qed.

Lemma load_cert_chain_cases (w : World) (context : SSLContext_obj) (c k : string) (s : proc) :
  (exists e, load_cert_chain w context c k s = (Raised e, s))
  \/ (exists context', load_cert_chain w context c k s
                       = (Returned context', emit (EvLoadCert c k) s)).
Proof.
  unfold load_cert_chain.
  destruct (read_file w c); [left; eexists; reflexivity |].
  destruct (read_file w k); [left; eexists; reflexivity |].
  destruct (w_valid_pair w _ _); [right | left]; eexists; reflexivity.
Qed.

Lemma HTTPServer_cases (w : World) (address : string * Z) (s : proc) :
  (exists e, w_bind w (fst address) (snd address) = Some e
             /\ HTTPServer w address s
                = (Raised e, {| cwd := cwd s; shutdown_request := false; trace := trace s |}))
  \/ (w_bind w (fst address) (snd address) = None
      /\ HTTPServer w address s
         = (Returned {| server_address := address; socket := PlainSocket |},
            {| cwd := cwd s; shutdown_request := false;
               trace := (trace s ++ [EvBind (fst address) (snd address); EvListen])%list |})).
Proof.
  unfold HTTPServer. erewrite bind_returned by reflexivity.
  destruct (w_bind w (fst address) (snd address)) as [e|]; [left | right].
  - exists e. split; reflexivity.
  - split; [reflexivity |]. unfold bind, record_event, ret, emit. simpl.
    now rewrite <- app_assoc.
Qed.

Lemma print_printable (w : World) (line : string) (s : proc) :
  printable w line = true -> print w line s = (Returned tt, emit (EvStdout line) s).
Proof.
  unfold printable, print, print_stdout.
  destruct (w_stdout w) as [|accepts|]; [reflexivity | |].
  - destruct (encodable w line); [| discriminate]. destruct accepts; [reflexivity | discriminate].
  - intros ->. reflexivity.
Qed.

Lemma print_unprintable (w : World) (line : string) (s : proc) :
  printable w line = false -> exists e, print w line s = (Raised e, s).
Proof.
  unfold printable, print, print_stdout.
  destruct (w_stdout w) as [|accepts|]; [discriminate | |].
  - destruct (encodable w line); [| eexists; reflexivity].
    destruct accepts; [discriminate | eexists; reflexivity].
  - intros ->. eexists; reflexivity.
Qed.

(** The second status line is plain ASCII: a stream that took the first
    line takes it too. *)
Lemma address_line_printable (w : World) (line : string) :
  printable w line = true ->
  printable w ("Server running at https://" ++ "0.0.0.0" ++ ":" ++ pystr.of_Z 8443 ++ "/") = true.
Proof.
  unfold printable. destruct (w_stdout w) as [|accepts|]; [reflexivity | |].
  - intros H. apply andb_true_iff in H as [_ ->]. reflexivity.
  - intros _. reflexivity.
Qed.

Lemma run_cases (w : World) (argv : list string) (__file__ : string) :
  startup w argv __file__.
Proof.
  pose (root := serve_root w argv).
  pose (rest := fun fuel : nat =>
    (httpd <- HTTPServer w ("0.0.0.0", 8443%Z) ;;
     script_dir <- (p <- os_path_abspath __file__ ;; ret (posixpath.dirname p)) ;;
     context <- SSLContext PROTOCOL_TLS_SERVER ;;
     context <- load_cert_chain w context (posixpath.join script_dir "cert.pem")
                  (posixpath.join script_dir "key.pem") ;;
     sock <- wrap_socket context (socket httpd) ;;
     print w ("Serving HTTPS from: " ++ root) ;;
     print w ("Server running at https://" ++ "0.0.0.0" ++ ":" ++ pystr.of_Z 8443 ++ "/") ;;
     serve_forever w fuel {| server_address := ("0.0.0.0", 8443%Z); socket := sock |} 0)).
  assert (forall fuel, run w argv __file__ fuel = (os_chdir w root ;; rest fuel) (init w)) as Hrun.
  { intros fuel. unfold run, main. rewrite serve_dir_arg.
    erewrite bind_returned by apply os_path_abspath_eq. reflexivity. }
  destruct (os_chdir_cases w root (init w)) as [(e & E)|E].
  { apply ChdirFails with (e := e); [exact E |].
    intros fuel. rewrite Hrun. unfold bind at 1. now rewrite E. }
  change {| cwd := w_realpath w root; shutdown_request := shutdown_request (init w);
            trace := (trace (init w) ++ [EvChdir root])%list |}
    with (at_stage w root [EvChdir root]) in E.
  assert (forall fuel, run w argv __file__ fuel = rest fuel (at_stage w root [EvChdir root]))
    as Hrun1.
  { intros fuel. rewrite Hrun. unfold bind at 1. now rewrite E. }
  clear Hrun. unfold rest in Hrun1.
  destruct (HTTPServer_cases w ("0.0.0.0", 8443%Z) (at_stage w root [EvChdir root]))
    as [(e & Ebind & Eh)|[Ebind Eh]]; cbn [fst snd] in Ebind.
  { apply BindFails with (e := e); [exact E | exact Ebind |].
    intros fuel. rewrite Hrun1. unfold bind at 1. now rewrite Eh. }
  change {| cwd := cwd (at_stage w root [EvChdir root]); shutdown_request := false;
            trace := (trace (at_stage w root [EvChdir root])
                      ++ [EvBind (fst ("0.0.0.0", 8443%Z)) (snd ("0.0.0.0", 8443%Z));
                          EvListen])%list |}
    with (at_stage w root (bound_events root)) in Eh.
  destruct (load_cert_chain_cases w fresh_context
              (cert_file_of w argv __file__) (key_file_of w argv __file__)
              (at_stage w root (bound_events root))) as [(e & El)|(context & El)].
  { apply CertFails with (e := e); [exact E | exact Ebind | exact El |].
    intros fuel. rewrite Hrun1.
    erewrite bind_returned by exact Eh.
    erewrite bind_returned; cycle 1.
    { erewrite bind_returned by apply os_path_abspath_eq. reflexivity. }
    erewrite bind_returned by reflexivity.
    erewrite bind_raised by exact El. reflexivity. }
  assert (forall fuel, run w argv __file__ fuel
          = (print w ("Serving HTTPS from: " ++ root) ;;
             print w ("Server running at https://" ++ "0.0.0.0" ++ ":" ++ pystr.of_Z 8443 ++ "/") ;;
             serve_forever w fuel tls_server 0)
              (at_stage w root
                 (bound_events root
                  ++ [EvLoadCert (cert_file_of w argv __file__) (key_file_of w argv __file__);
                      EvWrapSocket]))) as Hrun2.
  { intros fuel. rewrite Hrun1.
    erewrite bind_returned by exact Eh.
    erewrite bind_returned; cycle 1.
    { erewrite bind_returned by apply os_path_abspath_eq. reflexivity. }
    erewrite bind_returned by reflexivity.
    erewrite bind_returned by exact El.
    reflexivity. }
  destruct (printable w ("Serving HTTPS from: " ++ root)) eqn:Hp.
  - apply Starts with (context := context); [exact E | exact Ebind | exact El | exact Hp |].
    intros fuel. rewrite Hrun2.
    erewrite bind_returned by (apply print_printable; exact Hp).
    erewrite bind_returned
      by (apply print_printable; apply (address_line_printable w _ Hp)).
    reflexivity.
  - destruct (print_unprintable w _
                (at_stage w root
                   (bound_events root
                    ++ [EvLoadCert (cert_file_of w argv __file__) (key_file_of w argv __file__);
                        EvWrapSocket])) Hp) as (e & Ee).
    apply PrintFails with (context := context) (e := e);
      [exact E | exact Ebind | exact El | exact Hp |].
    intros fuel. rewrite Hrun2. erewrite bind_raised by exact Ee. reflexivity.
Qed.

(** ** Conditions on the world and the outcome of a run *)

Lemma os_chdir_enterable (w : World) (d : string) (s s' : proc) (u : unit) :
  os_chdir w d s = (Returned u, s') -> enterable w d = true.
Proof.
  unfold os_chdir, enterable.
  destruct (stat w d) as [[c|names]|]; try discriminate.
  destruct (w_access w d); [reflexivity | discriminate].
Qed.

Lemma os_chdir_not_enterable (w : World) (d : string) (s s' : proc) (e : exn) :
  os_chdir w d s = (Raised e, s') -> enterable w d = false.
Proof.
  unfold os_chdir, enterable.
  destruct (stat w d) as [[c|names]|]; try reflexivity.
  destruct (w_access w d); [discriminate | reflexivity].
Qed.

Lemma load_cert_chain_ok (w : World) (context context' : SSLContext_obj)
      (c k : string) (s s' : proc) :
  load_cert_chain w context c k s = (Returned context', s') -> credentials_ok w c k = true.
Proof.
  unfold load_cert_chain, credentials_ok.
  destruct (read_file w c); [discriminate |].
  destruct (read_file w k); [discriminate |].
  destruct (w_valid_pair w _ _); [reflexivity | discriminate].
Qed.

(** Request events are neither start-up steps nor standard output. *)
Lemma request_events_stdout (w : World) (D : string) (extra : list event) :
  Forall (request_event w D) extra -> stdout_of extra = [].
Proof.
  induction 1 as [|e extra He _ IH]; [reflexivity |].
  destruct e; simpl in *; try contradiction; exact IH.
Qed.

Lemma request_events_In (w : World) (D : string) (extra : list event) (e : event) :
  Forall (request_event w D) extra -> In e extra -> request_event w D e.
Proof. intros F Hin. now apply (proj1 (Forall_forall _ _) F). Qed.

(** Once started, a run is the start-up trace followed by request events,
    and the process is still serving unless a signal came in or the report
    of a failed connection could not be written. *)
Lemma started_run (w : World) (argv : list string) (__file__ : string) (fuel : nat) :
  run w argv __file__ fuel = serve_forever w fuel tls_server 0 (started w argv __file__) ->
  exists extra,
    Forall (request_event w (w_realpath w (serve_root w argv))) extra
    /\ snd (run w argv __file__ fuel) = extend (started w argv __file__) extra
    /\ ((fst (run w argv __file__ fuel) = Serving
         /\ forall j, j < fuel -> w_conn w j <> Signal)
        \/ (fst (run w argv __file__ fuel) = Killed
            /\ exists j, j < fuel /\ w_conn w j = Signal)
        \/ (exists e, fst (run w argv __file__ fuel) = Crashed e
                      /\ stderr_works w = false
                      /\ exists j, j < fuel /\ connected (w_conn w j))).
Proof.
  intros ->.
  destruct (serve_forever_spec w fuel tls_server 0 (started w argv __file__) eq_refl)
    as (extra & F & [[E Hno]|[[E (j & Hj & Hsig)]|(e & E & Hw & j & Hj & Hc)]]);
    exists extra; rewrite E; simpl fst; simpl snd.
  - split; [exact F | split; [reflexivity | left]]. split; [reflexivity |].
    intros j Hj. apply Hno. lia.
  - split; [exact F | split; [reflexivity | right; left]]. split; [reflexivity |].
    exists j. split; [lia | exact Hsig].
  - split; [exact F | split; [reflexivity | right; right]]. exists e.
    split; [reflexivity | split; [exact Hw |]]. exists j. split; [lia | exact Hc].
Qed.

(** ** The claims *)









Lemma firstn_2_nth_1 (argv argv' : list string) :
  firstn 2 argv = firstn 2 argv' -> nth 1 argv "." = nth 1 argv' ".".
Proof.
  destruct argv as [|a [|b l]], argv' as [|a' [|b' l']]; simpl; intros H;
    try discriminate; try reflexivity.
  now inversion H.
Qed.

(** C10. Two command lines that agree on the script name and on the
    first argument (its presence included) give the same run: same
    outcome, same working directory, same trace. What follows the first
    argument is never looked at, so it cannot cause an error either. *)
Theorem C10_extra_arguments_are_ignored
        (w : World) (argv argv' : list string) (__file__ : string) (fuel : nat) :
  firstn 2 argv = firstn 2 argv' ->
  run w argv __file__ fuel = run w argv' __file__ fuel.
Proof.
  intros H. unfold run, main. rewrite !serve_dir_arg.
  now rewrite (firstn_2_nth_1 _ _ H).
Qed.

Lemma C10_extra_arguments_are_ignored_witness :
  run (demo_world "/home/u" true) ["https_server.py"; "/srv/www"; "--port"; "9000"]
      "/opt/gfx/scripts/https_server.py" 4
  = run (demo_world "/home/u" true) ["https_server.py"; "/srv/www"]
        "/opt/gfx/scripts/https_server.py" 4.
Proof.
  apply C10_extra_arguments_are_ignored. reflexivity.
Defined.

Lemma normpath_isabs (p : string) :
  posixpath.isabs p = true -> posixpath.isabs (posixpath.normpath p) = true.
Proof.
  destruct p as [|a p]; [discriminate |].
  unfold posixpath.isabs. cbn [pystr.startswith]. rewrite andb_true_r. intros H.
  apply Ascii.eqb_eq in H. subst a.
  unfold posixpath.normpath, posixpath.initial_slashes.
  change (String "/" p =? "") with false.
  change (pystr.startswith "/" (String "/" p)) with true. cbv iota zeta.
  destruct (pystr.startswith "//" (String "/" p) && negb (pystr.startswith "///" (String "/" p)));
    reflexivity.
Qed.

Lemma join_isabs (a b : string) :
  posixpath.isabs a = true -> posixpath.isabs (posixpath.join a b) = true.
Proof.
  intros Ha. unfold posixpath.join.
  destruct (pystr.startswith "/" b) eqn:Eb; [exact Eb |].
  destruct ((a =? "") || pystr.endswith posixpath.sep a); now apply startswith_app.
Qed.

Lemma abspath_from_isabs (cwd p : string) :
  posixpath.isabs cwd = true -> posixpath.isabs (posixpath.abspath_from cwd p) = true.
Proof.
  intros Hc. unfold posixpath.abspath_from. apply normpath_isabs.
  destruct (posixpath.isabs p) eqn:Ep; [exact Ep | now apply join_isabs].
Qed.

Lemma nth_1_arg (argv : list string) :
  nth 1 argv "." = match argv with _ :: a :: _ => a | _ => "." end.
Proof. destruct argv as [|a [|b l]]; reflexivity. Qed.

Lemma request_events_chdir (w : World) (D : string) (extra : list event) (d : string) :
  Forall (request_event w D) extra -> ~ In (EvChdir d) extra.
Proof. intros F Hin. apply (request_events_In _ _ _ _ F) in Hin. contradiction. Qed.

(** C4. The directory served is the first argument after the script name
    when there is one and [.] otherwise, made absolute against the working
    directory of the invoker. It is computed once: that same value is the
    one directory the process tries to enter, and the one printed
    afterwards, although the working directory has changed by then. *)
Theorem C4_serve_root_resolution
        (w : World) (argv : list string) (__file__ : string) (fuel : nat) :
  posixpath.isabs (w_cwd w) = true ->
  let arg := match argv with _ :: a :: _ => a | _ => "." end in
  let root :=
    posixpath.normpath (if posixpath.isabs arg then arg else posixpath.join (w_cwd w) arg) in
  posixpath.isabs root = true
  /\ ((exists e, os_chdir w root (init w) = (Raised e, init w)
                 /\ run w argv __file__ fuel = (Raised e, init w))
      \/ (exists rest,
             trace (snd (run w argv __file__ fuel)) = EvChdir root :: rest
             /\ (forall d, ~ In (EvChdir d) rest)
             /\ (stdout_of rest = []
                 \/ stdout_of rest
                    = ["Serving HTTPS from: " ++ root;
                       "Server running at https://0.0.0.0:8443/"]))).
Proof.
  intros Hcwd arg root.
  assert (root = serve_root w argv) as Hroot.
  { unfold root, arg, serve_root, posixpath.abspath_from. now rewrite nth_1_arg. }
  rewrite Hroot. split; [now apply abspath_from_isabs |].
  destruct (run_cases w argv __file__)
    as [e E Hrun|e _ _ Hrun|e _ _ _ Hrun|context e _ _ _ _ Hrun|context _ _ _ _ Hrun].
  - left. exists e. now rewrite Hrun.
  - right. exists []. rewrite Hrun. repeat split; auto.
  - right. exists [EvBind "0.0.0.0" 8443; EvListen]. rewrite Hrun.
    repeat split; auto. intros d [H|[H|[]]]; discriminate.
  - right.
    exists [EvBind "0.0.0.0" 8443; EvListen;
            EvLoadCert (cert_file_of w argv __file__) (key_file_of w argv __file__);
            EvWrapSocket].
    rewrite Hrun. repeat split; auto. intros d [H|[H|[H|[H|[]]]]]; discriminate.
  - right. destruct (started_run w argv __file__ fuel (Hrun fuel)) as (extra & F & -> & _).
    exists ([EvBind "0.0.0.0" 8443; EvListen;
             EvLoadCert (cert_file_of w argv __file__) (key_file_of w argv __file__);
             EvWrapSocket;
             EvStdout ("Serving HTTPS from: " ++ serve_root w argv);
             EvStdout "Server running at https://0.0.0.0:8443/"] ++ extra)%list.
    split; [reflexivity | split].
    + intros d Hin. apply in_app_or in Hin as [Hin|Hin].
      * simpl in Hin. repeat (destruct Hin as [Hin|Hin]; [discriminate |]). exact Hin.
      * exact (request_events_chdir _ _ _ _ F Hin).
    + right. unfold stdout_of. rewrite flat_map_app.
      fold (stdout_of extra). rewrite (request_events_stdout _ _ _ F). reflexivity.
Qed.

Lemma C4_serve_root_resolution_witness :
  posixpath.isabs "/srv" = true
  /\ posixpath.isabs (posixpath.normpath (posixpath.join "/srv" "www/../www")) = true.
Proof.
  split; [reflexivity |].
  exact (proj1 (C4_serve_root_resolution (demo_world "/srv" true)
                  ["https_server.py"; "www/../www"] "/opt/gfx/scripts/https_server.py" 1
                  eq_refl)).
Defined.




(** With an absolute [__file__] the credential files are the two names
    next to the script, whatever the arguments and the world. *)
Lemma credential_paths_absolute_script
      (w : World) (argv : list string) (__file__ : string) :
  posixpath.isabs __file__ = true ->
  cert_file_of w argv __file__
  = posixpath.join (posixpath.dirname (posixpath.normpath __file__)) "cert.pem"
  /\ key_file_of w argv __file__
     = posixpath.join (posixpath.dirname (posixpath.normpath __file__)) "key.pem".
Proof.
  intros H. unfold cert_file_of, key_file_of, script_dir_of, posixpath.abspath_from.
  now rewrite H.
Qed.

(** C2, where the code goes wrong. The script is started from the
    checkout as [python3 scripts/https_server.py /srv/www] and [__file__]
    is that relative name. [os.path.abspath(__file__)] runs after
    [os.chdir], so the pair is looked for under the served directory and
    the run fails, although both files lie next to the script; without the
    argument the same invocation finds them. *)
Lemma C2_relative_script_path_follows_serve_dir :
  demo_fs true "/opt/gfx/scripts/cert.pem" = Some (File "CERT")
  /\ cert_file_of (demo_world "/opt/gfx" true) ["scripts/https_server.py"; "/srv/www"]
                  "scripts/https_server.py"
     = "/srv/www/scripts/cert.pem"
  /\ fst (run (demo_world "/opt/gfx" true) ["scripts/https_server.py"; "/srv/www"]
              "scripts/https_server.py" 0)
     = Raised (FileNotFoundError "/srv/www/scripts/cert.pem")
  /\ run (demo_world "/opt/gfx" true) ["scripts/https_server.py"]
         "scripts/https_server.py" 0
     = (Serving,
        at_stage (demo_world "/opt/gfx" true) "/opt/gfx"
          [EvChdir "/opt/gfx"; EvBind "0.0.0.0" 8443; EvListen;
           EvLoadCert "/opt/gfx/scripts/cert.pem" "/opt/gfx/scripts/key.pem";
           EvWrapSocket;
           EvStdout "Serving HTTPS from: /opt/gfx";
           EvStdout "Server running at https://0.0.0.0:8443/"]).
Proof. repeat split. Qed.

(** C6. Whatever is requested, a file whose bytes the server sends is a
    file inside the served directory, under the name the file system has
    it, and a directory it lists is inside the served directory: the name
    is the directory followed by whole components, none of them [..]. *)
Theorem C6_served_files_stay_inside
        (w : World) (argv : list string) (__file__ : string) (fuel : nat) (r : response) :
  In (EvRespond r) (trace (snd (run w argv __file__ fuel))) ->
  match r with
  | FileContent file content =>
      inside (w_realpath w (serve_root w argv)) file = true
      /\ read_file w file = inr content
  | Listing dir _ => inside (w_realpath w (serve_root w argv)) dir = true
  | HeadersOnly _ => True
  | ErrorPage _ => True
  end.
Proof.
  destruct (run_cases w argv __file__)
    as [e _ Hrun|e _ _ Hrun|e _ _ _ Hrun|context e _ _ _ _ Hrun|context _ _ _ _ Hrun].
  - rewrite Hrun. intros [].
  - rewrite Hrun. intros [H|[]]. discriminate.
  - rewrite Hrun. intros [H|[H|[H|[]]]]; discriminate.
  - rewrite Hrun. intros [H|[H|[H|[H|[H|[]]]]]]; discriminate.
  - destruct (started_run w argv __file__ fuel (Hrun fuel)) as (extra & F & -> & _).
    unfold extend. cbn [trace]. intros Hin. apply in_app_or in Hin as [Hin|Hin].
    + simpl in Hin. repeat (destruct Hin as [Hin|Hin]; [discriminate |]). destruct Hin.
    + apply (request_events_In _ _ _ _ F) in Hin. simpl in Hin.
      destruct r as [file content|dir names|code|code]; auto.
      * destruct Hin as [Hi Hr]. split; [now apply inside_iff | exact Hr].
      * now apply inside_iff.
Qed.

Lemma C6_served_files_stay_inside_witness :
  inside "/srv/www" "/srv/www/hello.txt" = true
  /\ read_file (demo_world "/home/u" true) "/srv/www/hello.txt" = inr "hi".
Proof.
  apply (C6_served_files_stay_inside (demo_world "/home/u" true)
           ["https_server.py"; "/srv/www"] "/opt/gfx/scripts/https_server.py" 2
           (FileContent "/srv/www/hello.txt" "hi")).
  vm_compute. do 8 right. left. reflexivity.
Defined.

(** The request of the specification: the traversal is resolved inside the
    served directory and answered with the error page. *)
Example traversal_is_confined :
  http_server.translate_path "/srv/www" "/../../etc/passwd" = "/srv/www/etc/passwd"
  /\ http_server.translate_path "/srv/www" "/%2e%2e/%2e%2e/etc/passwd" = "/srv/www/etc/passwd"
  /\ http_server.translate_path "/srv/www" "../../etc/passwd" = "/srv/www/etc/passwd"
  /\ inside "/srv/www" "/etc/passwd" = false
  /\ inside "/srv/www" "/srv/www/../../etc/passwd" = false
  /\ inside "/srv/www" "/srv/wwwx/hello.txt" = false
  /\ In (EvRespond (ErrorPage "404"))
        (trace (snd (run (demo_world "/home/u" true) ["https_server.py"; "/srv/www"]
                         "/opt/gfx/scripts/https_server.py" 2))).
Proof. repeat split. vm_compute. do 11 right. left. reflexivity. Qed.







(** C9. A run either dies of an exception having written nothing at all,
    or its trace begins with the change of directory, the bind, the
    listen, the loading of the certificate and the wrapping of the socket,
    in that order, then the two status lines, and no line is printed
    after them. *)
Theorem C9_status_lines_follow_initialisation
        (w : World) (argv : list string) (__file__ : string) (fuel : nat) :
  (exists e,
      fst (run w argv __file__ fuel) = Raised e
      /\ stdout_of (trace (snd (run w argv __file__ fuel))) = []
      /\ stderr_of (trace (snd (run w argv __file__ fuel))) = [])
  \/ (exists certfile keyfile rest,
         trace (snd (run w argv __file__ fuel))
         = ([EvChdir (serve_root w argv); EvBind "0.0.0.0" 8443; EvListen;
             EvLoadCert certfile keyfile; EvWrapSocket;
             EvStdout ("Serving HTTPS from: " ++ serve_root w argv);
             EvStdout "Server running at https://0.0.0.0:8443/"] ++ rest)%list
         /\ stdout_of rest = []
         /\ fst (run w argv __file__ fuel) <> Returned tt
         /\ forall e, fst (run w argv __file__ fuel) <> Raised e).
Proof.
  destruct (run_cases w argv __file__)
    as [e _ Hrun|e _ _ Hrun|e _ _ _ Hrun|context e _ _ _ _ Hrun|context _ _ _ _ Hrun];
    try (left; exists e; rewrite Hrun; repeat split).
  right. destruct (started_run w argv __file__ fuel (Hrun fuel)) as (extra & F & E & Hout).
  exists (cert_file_of w argv __file__), (key_file_of w argv __file__), extra.
  rewrite E. split; [reflexivity |]. split; [exact (request_events_stdout _ _ _ F) |].
  destruct Hout as [[-> _]|[[-> _]|(e & -> & _)]]; split; try intros e'; discriminate.
Qed.


(** ** Further properties of the script *)

Lemma load_cert_chain_fails (w : World) (context : SSLContext_obj)
      (c k : string) (s s' : proc) (e : exn) :
  load_cert_chain w context c k s = (Raised e, s') -> credentials_ok w c k = false.
Proof.
  unfold load_cert_chain, credentials_ok.
  destruct (read_file w c); [reflexivity |].
  destruct (read_file w k); [reflexivity |].
  destruct (w_valid_pair w _ _); [discriminate | reflexivity].
Qed.



(** X2. The start-up succeeds exactly when the serve directory can be
    entered, the address can be bound, the credential pair next to the
    resolved script path loads, and [sys.stdout] takes the line that names
    the served directory: it is missing, or it can encode the directory
    name and does not refuse the write. *)
Theorem starts_iff (w : World) (argv : list string) (__file__ : string) :
  starts w argv __file__
  <-> enterable w (serve_root w argv) = true
      /\ w_bind w "0.0.0.0" 8443%Z = None
      /\ credentials_ok w (cert_file_of w argv __file__) (key_file_of w argv __file__) = true
      /\ printable w ("Serving HTTPS from: " ++ serve_root w argv) = true.
Proof.
  unfold starts.
  destruct (run_cases w argv __file__)
    as [e E Hrun|e E Eb Hrun|e E Eb El Hrun|context e E Eb El Hp Hrun|context E Eb El Hp Hrun];
    rewrite Hrun.
  - apply os_chdir_not_enterable in E. split; [discriminate |]. intros (H & _). congruence.
  - split; [discriminate |]. intros (_ & H & _). congruence.
  - apply load_cert_chain_fails in El. split; [discriminate |]. intros (_ & _ & H & _). congruence.
  - split; [discriminate |]. intros (_ & _ & _ & H). congruence.
  - apply os_chdir_enterable in E. apply load_cert_chain_ok in El. split; auto.
Qed.

(** X3. The working directory of the process is the served directory as
    soon as that directory can be entered, and the invoker's otherwise:
    no later step and no request changes it, however the run ends. *)
Theorem working_directory_is_settled
        (w : World) (argv : list string) (__file__ : string) (fuel : nat) :
  cwd (snd (run w argv __file__ fuel))
  = if enterable w (serve_root w argv) then w_realpath w (serve_root w argv) else w_cwd w.
Proof.
  destruct (run_cases w argv __file__)
    as [e E Hrun|e E _ Hrun|e E _ _ Hrun|context e E _ _ _ Hrun|context E _ _ _ Hrun].
  - rewrite Hrun, (os_chdir_not_enterable _ _ _ _ _ E). reflexivity.
  - rewrite Hrun, (os_chdir_enterable _ _ _ _ _ E). reflexivity.
  - rewrite Hrun, (os_chdir_enterable _ _ _ _ _ E). reflexivity.
  - rewrite Hrun, (os_chdir_enterable _ _ _ _ _ E). reflexivity.
  - destruct (started_run w argv __file__ fuel (Hrun fuel)) as (extra & _ & -> & _).
    rewrite (os_chdir_enterable _ _ _ _ _ E). reflexivity.
Qed.

(** X5. When [__file__] is an absolute path, the credential files a run
    loads are [cert.pem] and [key.pem] in the directory of the normalised
    script path, whatever the serve-directory argument, the working
    directory of the invoker and the rest of the world. *)
Theorem absolute_script_path_fixes_credentials
        (w : World) (argv : list string) (__file__ : string) (fuel : nat)
        (certfile keyfile : string) :
  posixpath.isabs __file__ = true ->
  In (EvLoadCert certfile keyfile) (trace (snd (run w argv __file__ fuel))) ->
  certfile = posixpath.join (posixpath.dirname (posixpath.normpath __file__)) "cert.pem"
  /\ keyfile = posixpath.join (posixpath.dirname (posixpath.normpath __file__)) "key.pem".
Proof.
  intros Habs.
  destruct (credential_paths_absolute_script w argv __file__ Habs) as [Hc Hk].
  destruct (run_cases w argv __file__)
    as [e _ Hrun|e _ _ Hrun|e _ _ _ Hrun|context e _ _ _ _ Hrun|context _ _ _ _ Hrun].
  - rewrite Hrun. intros [].
  - rewrite Hrun. intros [H|[]]. discriminate.
  - rewrite Hrun. intros [H|[H|[H|[]]]]; discriminate.
  - rewrite Hrun. cbn [snd at_stage trace bound_events app].
    intros [H|[H|[H|[H|[H|[]]]]]]; try discriminate.
    inversion H. subst. now split.
  - destruct (started_run w argv __file__ fuel (Hrun fuel)) as (extra & F & -> & _).
    unfold extend. cbn [trace]. intros Hin. apply in_app_or in Hin as [Hin|Hin].
    + simpl in Hin.
      destruct Hin as [H|[H|[H|[H|Hin]]]]; try discriminate.
      * inversion H. subst. now split.
      * repeat (destruct Hin as [Hin|Hin]; [discriminate |]). destruct Hin.
    + apply (request_events_In _ _ _ _ F) in Hin. contradiction.
Qed.

Lemma absolute_script_path_fixes_credentials_witness :
  "/opt/gfx/scripts/cert.pem"
  = posixpath.join (posixpath.dirname (posixpath.normpath "/opt/gfx/scripts/https_server.py"))
      "cert.pem"
  /\ "/opt/gfx/scripts/key.pem"
     = posixpath.join (posixpath.dirname (posixpath.normpath "/opt/gfx/scripts/https_server.py"))
         "key.pem".
Proof.
  apply (absolute_script_path_fixes_credentials (demo_world "/home/u" true)
           ["https_server.py"; "/srv/www"] "/opt/gfx/scripts/https_server.py" 1).
  - reflexivity.
  - vm_compute. do 3 right. left. reflexivity.
Defined.

Lemma os_chdir_uniform (w : World) (root : string) :
  (exists e, forall s, os_chdir w root s = (Raised e, s))
  \/ (forall s, os_chdir w root s
                = (Returned tt,
                   {| cwd := w_realpath w root; shutdown_request := shutdown_request s;
                      trace := (trace s ++ [EvChdir root])%list |})).
Proof.
  unfold os_chdir.
  destruct (stat w root) as [[c|names]|]; [| destruct (w_access w root) |];
    try (left; eexists; intros s; reflexivity).
  right. intros s. reflexivity.
Qed.

Lemma chdir_first {A} (w : World) (arg : string) (k : string -> unit -> Proc A)
      (s1 s2 : proc) :
  posixpath.isabs arg = true ->
  trace s1 = trace s2 -> shutdown_request s1 = shutdown_request s2 ->
  fst ((d <- os_path_abspath arg ;; bind (os_chdir w d) (k d)) s1)
  = fst ((d <- os_path_abspath arg ;; bind (os_chdir w d) (k d)) s2)
  /\ trace (snd ((d <- os_path_abspath arg ;; bind (os_chdir w d) (k d)) s1))
     = trace (snd ((d <- os_path_abspath arg ;; bind (os_chdir w d) (k d)) s2)).
Proof.
  intros Habs Ht Hf.
  rewrite !(bind_returned _ _ _ _ _ (os_path_abspath_eq arg _)).
  unfold posixpath.abspath_from. rewrite Habs.
  unfold bind.
  destruct (os_chdir_uniform w (posixpath.normpath arg)) as [(e & E)|E]; rewrite !E.
  - split; [reflexivity | exact Ht].
  - rewrite Ht, Hf. split; reflexivity.
Qed.

(** X6. With an absolute serve-directory argument it does not matter
    where the script is invoked from: outcome and trace of the run are
    the same from every working directory, for any [__file__] (a relative
    one is resolved after the change of directory). *)
Theorem absolute_argument_runs_alike_from_anywhere
        (w : World) (dir : string) (argv : list string) (__file__ : string) (fuel : nat) :
  posixpath.isabs (nth 1 argv ".") = true ->
  fst (run (invoked_from w dir) argv __file__ fuel) = fst (run w argv __file__ fuel)
  /\ trace (snd (run (invoked_from w dir) argv __file__ fuel))
     = trace (snd (run w argv __file__ fuel)).
Proof.
  intros Habs. unfold run.
  change (main (invoked_from w dir) argv __file__ fuel) with (main w argv __file__ fuel).
  unfold main. rewrite serve_dir_arg.
  apply chdir_first; [exact Habs | reflexivity | reflexivity].
Qed.

Lemma absolute_argument_runs_alike_from_anywhere_witness :
  trace (snd (run (invoked_from (demo_world "/home/u" true) "/tmp")
                  ["https_server.py"; "/srv/www"] "scripts/https_server.py" 2))
  = trace (snd (run (demo_world "/home/u" true)
                    ["https_server.py"; "/srv/www"] "scripts/https_server.py" 2)).
Proof.
  exact (proj2 (absolute_argument_runs_alike_from_anywhere (demo_world "/home/u" true) "/tmp"
                  ["https_server.py"; "/srv/www"] "scripts/https_server.py" 2 eq_refl)).
Defined.

(** *** [dirname] and [join] *)

Lemma contains_app_sep (c : ascii) (a b : string) :
  pystr.contains c (a ++ String c b) = true.
Proof.
  induction a as [|x a IH]; simpl.
  - now rewrite Ascii.eqb_refl.
  - rewrite IH. apply orb_true_r.
Qed.

Lemma head_no_sep (s : string) :
  pystr.contains posixpath.sep s = false -> posixpath.head s = "".
Proof.
  destruct s as [|a s]; [reflexivity |].
  unfold posixpath.head; fold posixpath.head. now intros ->.
Qed.

Lemma head_app_sep (a name : string) :
  pystr.contains posixpath.sep name = false ->
  posixpath.head (a ++ String posixpath.sep name) = a ++ String posixpath.sep "".
Proof.
  intros Hn. induction a as [|x a IH].
  - cbn [append]. unfold posixpath.head; fold posixpath.head.
    cbn [pystr.contains]. rewrite Ascii.eqb_refl. cbn [orb].
    now rewrite (head_no_sep _ Hn).
  - cbn [append]. unfold posixpath.head; fold posixpath.head.
    cbn [pystr.contains]. rewrite contains_app_sep, orb_true_r. now rewrite IH.
Qed.

Lemma rstrip_app_sep (d : string) :
  pystr.rstrip not_sep (d ++ String posixpath.sep "") = pystr.rstrip not_sep d.
Proof.
  induction d as [|x d IH]; [reflexivity |].
  cbn [append pystr.rstrip]. now rewrite IH.
Qed.

Lemma rstrip_idem (d : string) :
  pystr.rstrip not_sep (pystr.rstrip not_sep d) = pystr.rstrip not_sep d.
Proof.
  induction d as [|x d IH]; [reflexivity |].
  cbn [pystr.rstrip]. destruct (pystr.rstrip not_sep d) as [|b r] eqn:E.
  - destruct (not_sep x) eqn:Ex; [| reflexivity].
    cbn [pystr.rstrip]. now rewrite Ex.
  - cbn [pystr.rstrip] in *. now rewrite IH.
Qed.

Lemma rstrip_empty_endswith (d : string) :
  pystr.rstrip not_sep d = "" -> d <> "" -> pystr.endswith posixpath.sep d = true.
Proof.
  induction d as [|x d IH]; [contradiction |].
  cbn [pystr.rstrip]. destruct (pystr.rstrip not_sep d) eqn:E; [| discriminate].
  unfold not_sep. destruct (Ascii.eqb x posixpath.sep) eqn:Ex; [| discriminate].
  intros _ _. destruct d as [|y d]; [exact Ex |].
  cbn [pystr.endswith]. apply IH; [reflexivity | discriminate].
Qed.

Lemma rstrip_fixed_endswith (d : string) :
  pystr.rstrip not_sep d = d -> d <> "" -> pystr.endswith posixpath.sep d = false.
Proof.
  induction d as [|x d IH]; [contradiction |].
  cbn [pystr.rstrip]. destruct (pystr.rstrip not_sep d) as [|b r] eqn:E.
  - unfold not_sep. destruct (Ascii.eqb x posixpath.sep) eqn:Ex; [discriminate |].
    intros H _. inversion H. subst d. exact Ex.
  - intros H _. injection H as Hd. destruct d as [|y d]; [discriminate |].
    change (pystr.endswith posixpath.sep (String y d) = false).
    apply IH; [exact Hd | discriminate].
Qed.

(** What [dirname] returns is empty, or made of separators only, or has no
    trailing separator. *)
Lemma dirname_shape (p : string) :
  pystr.rstrip not_sep (posixpath.dirname p) = ""
  \/ (pystr.rstrip not_sep (posixpath.dirname p) = posixpath.dirname p
      /\ posixpath.dirname p <> "").
Proof.
  unfold posixpath.dirname. fold not_sep.
  destruct (String.eqb_spec (pystr.rstrip not_sep (posixpath.head p)) "") as [E|E].
  - now left.
  - right. split; [apply rstrip_idem | exact E].
Qed.

Lemma dirname_join_dirname (p name : string) :
  pystr.contains posixpath.sep name = false ->
  posixpath.dirname (posixpath.join (posixpath.dirname p) name) = posixpath.dirname p.
Proof.
  intros Hn. set (d := posixpath.dirname p).
  assert (pystr.startswith "/" name = false) as Hrel.
  { destruct (pystr.startswith "/" name) eqn:E; [| reflexivity].
    apply startswith_contains in E. unfold posixpath.sep in Hn. congruence. }
  unfold posixpath.join. rewrite Hrel.
  destruct (dirname_shape p) as [Hall|[Hfix Hne]]; fold d in Hall || fold d in Hfix, Hne.
  - destruct (String.eqb_spec d "") as [Hd|Hd].
    + rewrite Hd. cbn [orb append]. unfold posixpath.dirname.
      now rewrite (head_no_sep _ Hn).
    + pose proof (rstrip_empty_endswith d Hall Hd) as He. rewrite He. cbn [orb].
      apply endswith_inv in He as (a & Ha).
      unfold posixpath.dirname. fold not_sep.
      rewrite Ha, append_assoc. cbn [append]. rewrite (head_app_sep _ _ Hn).
      rewrite <- Ha, Hall. reflexivity.
  - rewrite (rstrip_fixed_endswith d Hfix Hne).
    destruct (String.eqb_spec d "") as [Hd|_]; [contradiction |]. cbn [orb].
    unfold posixpath.dirname. fold not_sep. cbn [append].
    rewrite (head_app_sep _ _ Hn), rstrip_app_sep, Hfix.
    destruct (String.eqb_spec d ""); [contradiction | reflexivity].
Qed.

(** X7. The two credential files are looked for directly in the
    directory of the script path: taking the directory of the certificate
    path, or of the key path, gives the script directory back, whatever
    [__file__] is and wherever the process stands. *)
Theorem credential_files_lie_in_script_directory
        (w : World) (argv : list string) (__file__ : string) :
  posixpath.dirname (cert_file_of w argv __file__) = script_dir_of w argv __file__
  /\ posixpath.dirname (key_file_of w argv __file__) = script_dir_of w argv __file__.
Proof.
  unfold cert_file_of, key_file_of, script_dir_of.
  split; apply dirname_join_dirname; reflexivity.
Qed.


(** *** [normpath] and the default argument *)

Lemma collapse_app (k : nat) (l1 l2 acc : list string) :
  posixpath.collapse k (l1 ++ l2) acc = posixpath.collapse k l2 (posixpath.collapse k l1 acc).
Proof.
  revert acc. induction l1 as [|comp l1 IH]; intros acc; [reflexivity |].
  cbn [app posixpath.collapse].
  destruct ((comp =? "") || (comp =? posixpath.curdir)); [apply IH |].
  destruct (negb (comp =? posixpath.pardir)
            || (Nat.eqb k 0 && match acc with [] => true | _ => false end)
            || match acc with last :: _ => last =? posixpath.pardir | [] => false end);
    apply IH.
Qed.

Lemma startswith_slashes_app (n : nat) (c t : string) :
  pystr.endswith posixpath.sep c = false -> c <> "" ->
  pystr.startswith (posixpath.slashes_str n) (c ++ t)
  = pystr.startswith (posixpath.slashes_str n) c.
Proof.
  revert c. induction n as [|n IH]; intros c He Hc; [reflexivity |].
  destruct c as [|a c]; [contradiction |].
  cbn [posixpath.slashes_str append pystr.startswith].
  destruct (Ascii.eqb posixpath.sep a) eqn:Ea; [| reflexivity]. cbn [andb].
  destruct c as [|b c].
  - apply Ascii.eqb_eq in Ea. subst a. discriminate.
  - apply IH; [exact He | discriminate].
Qed.

Lemma startswith_slashes_app_char (n : nat) (c : string) (x : ascii) (t : string) :
  Ascii.eqb posixpath.sep x = false ->
  pystr.startswith (posixpath.slashes_str n) (c ++ String x t)
  = pystr.startswith (posixpath.slashes_str n) c.
Proof.
  intros Hx. revert c. induction n as [|n IH]; intros c; [reflexivity |].
  destruct c as [|a c]; cbn [posixpath.slashes_str append pystr.startswith].
  - now rewrite Hx.
  - now rewrite IH.
Qed.

Lemma initial_slashes_by_prefixes (x y : string) :
  (forall n, pystr.startswith (posixpath.slashes_str n) x
             = pystr.startswith (posixpath.slashes_str n) y) ->
  posixpath.initial_slashes x = posixpath.initial_slashes y.
Proof.
  intros H. unfold posixpath.initial_slashes.
  pose proof (H 1) as H1. pose proof (H 2) as H2. pose proof (H 3) as H3.
  cbv [posixpath.slashes_str posixpath.sep] in H1, H2, H3.
  now rewrite H1, H2, H3.
Qed.

Lemma normpath_by_parts (x y : string) :
  x <> "" -> y <> "" ->
  posixpath.initial_slashes x = posixpath.initial_slashes y ->
  posixpath.collapse (posixpath.initial_slashes y) (pystr.split posixpath.sep x) []
  = posixpath.collapse (posixpath.initial_slashes y) (pystr.split posixpath.sep y) [] ->
  posixpath.normpath x = posixpath.normpath y.
Proof.
  intros Hx Hy Hk Hc. unfold posixpath.normpath.
  destruct (String.eqb_spec x ""); [contradiction |].
  destruct (String.eqb_spec y ""); [contradiction |].
  cbv zeta. now rewrite Hk, Hc.
Qed.

Lemma normpath_join_curdir (c : string) :
  c <> "" -> posixpath.normpath (posixpath.join c ".") = posixpath.normpath c.
Proof.
  intros Hc. unfold posixpath.join.
  change (pystr.startswith "/" ".") with false. cbv iota.
  destruct (String.eqb_spec c "") as [|_]; [contradiction |]. cbn [orb].
  destruct (pystr.endswith posixpath.sep c) eqn:He.
  - destruct (endswith_inv _ _ He) as (a & Ha).
    apply normpath_by_parts; [destruct c; discriminate | exact Hc | |].
    + apply initial_slashes_by_prefixes. intros n.
      now apply startswith_slashes_app_char.
    + rewrite Ha, append_assoc. cbn [append].
      rewrite !split_app_sep, !collapse_app. reflexivity.
  - apply normpath_by_parts; [destruct c; discriminate | exact Hc | |].
    + apply initial_slashes_by_prefixes. intros n.
      now apply startswith_slashes_app.
    + change ("/" ++ ".") with (String posixpath.sep ".").
      rewrite split_app_sep, collapse_app. reflexivity.
Qed.

(** X8. Without a serve-directory argument the script behaves exactly as
    if the working directory of the invoker had been given: the two runs
    have the same outcome, the same final state and the same trace. *)
Theorem no_argument_serves_invoker_directory
        (w : World) (argv : list string) (prog __file__ : string) (fuel : nat) :
  length argv <= 1 ->
  posixpath.isabs (w_cwd w) = true ->
  run w argv __file__ fuel = run w [prog; w_cwd w] __file__ fuel.
Proof.
  intros Hlen Habs. unfold run, main. rewrite !serve_dir_arg.
  assert (nth 1 argv "." = ".") as ->.
  { destruct argv as [|a [|b l]]; [reflexivity | reflexivity | simpl in Hlen; lia]. }
  cbn [nth].
  rewrite !(bind_returned _ _ _ _ _ (os_path_abspath_eq _ _)).
  cbn [cwd init]. unfold posixpath.abspath_from. rewrite Habs.
  change (posixpath.isabs ".") with false. cbv iota.
  rewrite normpath_join_curdir; [reflexivity |].
  intros E. rewrite E in Habs. discriminate.
Qed.

Lemma no_argument_serves_invoker_directory_witness :
  run (demo_world "/srv/www" true) ["https_server.py"] "/opt/gfx/scripts/https_server.py" 2
  = run (demo_world "/srv/www" true) ["https_server.py"; "/srv/www"]
        "/opt/gfx/scripts/https_server.py" 2.
Proof.
  apply (no_argument_serves_invoker_directory (demo_world "/srv/www" true)
           ["https_server.py"] "https_server.py" "/opt/gfx/scripts/https_server.py" 2).
  - simpl. lia.
  - reflexivity.
Defined.

(** *** [normpath] is idempotent *)

Lemma split_words_no_sep (c : ascii) (s x : string) :
  In x (pystr.split c s) -> pystr.contains c x = false.
Proof.
  revert x. induction s as [|a s IH]; simpl; intros x H.
  - destruct H as [<-|[]]. reflexivity.
  - destruct (Ascii.eqb a c) eqn:E.
    + destruct H as [<-|H]; [reflexivity | now apply IH].
    + destruct (pystr.split c s) as [|v vs] eqn:Es.
      * destruct H as [<-|[]]. simpl. now rewrite E.
      * destruct H as [<-|H].
        -- simpl. rewrite E. apply IH. now left.
        -- apply IH. now right.
Qed.

Lemma collapse_members (P : string -> Prop) (k : nat) (comps acc : list string) :
  Forall P comps -> Forall P acc -> Forall P (posixpath.collapse k comps acc).
Proof.
  intros Hc. revert acc. induction Hc as [|comp comps Hp _ IH]; intros acc Ha; [exact Ha |].
  cbn [posixpath.collapse].
  destruct ((comp =? "") || (comp =? posixpath.curdir)); [now apply IH |].
  destruct (negb (comp =? posixpath.pardir)
            || (Nat.eqb k 0 && match acc with [] => true | _ => false end)
            || match acc with last :: _ => last =? posixpath.pardir | [] => false end).
  - apply IH. now constructor.
  - apply IH. destruct Ha; [constructor | assumption].
Qed.

Lemma push_or_pop_shape (k : nat) (comp : string) (acc : list string) :
  comp <> "" -> comp <> posixpath.curdir -> stack_shape k acc ->
  stack_shape k
    (if negb (comp =? posixpath.pardir)
        || (Nat.eqb k 0 && match acc with [] => true | _ => false end)
        || match acc with last :: _ => last =? posixpath.pardir | [] => false end
     then comp :: acc else List.tl acc).
Proof.
  intros Hne Hnd (names & dots & -> & Hd & Hk & Hn).
  destruct (String.eqb_spec comp posixpath.pardir) as [->|Hnp]; cbn [negb orb].
  - destruct names as [|n names _] using rev_ind.
    + cbn [rev app]. destruct dots as [|d dots].
      * destruct (Nat.eqb_spec k 0) as [Hk0|Hk0]; cbn [andb orb tl].
        -- exists [], [posixpath.pardir]. repeat split; auto. intros H. contradiction.
        -- exists [], []. repeat split; auto.
      * inversion Hd as [|? ? Hd1 Hd2]; subst d.
        rewrite andb_false_r, String.eqb_refl. cbn [orb].
        exists [], (posixpath.pardir :: posixpath.pardir :: dots). repeat split; auto.
        intros Hk'. specialize (Hk Hk'). discriminate.
    + rewrite rev_app_distr. cbn [rev app].
      apply Forall_app in Hn as [Hn Hlast]. inversion Hlast as [|? ? (_ & _ & Hnn) _]; subst.
      rewrite andb_false_r. destruct (String.eqb_spec n posixpath.pardir); [contradiction |].
      cbn [orb tl]. exists names, dots. repeat split; auto.
  - exists (names ++ [comp])%list, dots. rewrite rev_app_distr. repeat split; auto.
    apply Forall_app. split; [exact Hn |]. constructor; [| constructor]. repeat split; auto.
Qed.

Lemma collapse_shape (k : nat) (comps acc : list string) :
  stack_shape k acc -> stack_shape k (posixpath.collapse k comps acc).
Proof.
  revert acc. induction comps as [|comp comps IH]; intros acc Hs; [exact Hs |].
  cbn [posixpath.collapse].
  destruct (String.eqb_spec comp "") as [|Hne]; [now apply IH |].
  destruct (String.eqb_spec comp posixpath.curdir) as [|Hnd]; [now apply IH |].
  cbn [orb]. pose proof (push_or_pop_shape k comp acc Hne Hnd Hs) as Hnext.
  destruct (negb (comp =? posixpath.pardir)
            || (Nat.eqb k 0 && match acc with [] => true | _ => false end)
            || match acc with last :: _ => last =? posixpath.pardir | [] => false end);
    now apply IH.
Qed.

Lemma collapse_plain (k : nat) (names acc : list string) :
  Forall plain_comp names -> posixpath.collapse k names acc = (rev names ++ acc)%list.
Proof.
  intros Hn. revert acc. induction Hn as [|n names (H1 & H2 & H3) _ IH]; intros acc;
    [reflexivity |].
  cbn [posixpath.collapse].
  destruct (String.eqb_spec n ""); [contradiction |].
  destruct (String.eqb_spec n posixpath.curdir); [contradiction |].
  destruct (String.eqb_spec n posixpath.pardir); [contradiction |].
  cbn [orb negb]. rewrite IH. cbn [rev]. now rewrite <- app_assoc.
Qed.

Lemma collapse_dots (dots acc : list string) :
  Forall (eq posixpath.pardir) dots -> Forall (eq posixpath.pardir) acc ->
  posixpath.collapse 0 dots acc = (rev dots ++ acc)%list.
Proof.
  intros Hd. revert acc. induction Hd as [|d dots <- _ IH]; intros acc Ha; [reflexivity |].
  cbn [posixpath.collapse]. change (posixpath.pardir =? "") with false.
  change (posixpath.pardir =? posixpath.curdir) with false.
  change (posixpath.pardir =? posixpath.pardir) with true. cbn [orb negb Nat.eqb andb].
  assert ((match acc with [] => true | _ :: _ => false end
           || match acc with last :: _ => last =? posixpath.pardir | [] => false end) = true)
    as ->.
  { destruct Ha as [|a acc <- _]; reflexivity. }
  rewrite IH by now constructor. cbn [rev]. now rewrite <- app_assoc.
Qed.

Lemma collapse_fixed (k : nat) (names dots : list string) :
  Forall (eq posixpath.pardir) dots -> (k <> 0 -> dots = []) -> Forall plain_comp names ->
  posixpath.collapse k (rev dots ++ names) [] = (rev names ++ dots)%list.
Proof.
  intros Hd Hk Hn. rewrite collapse_app, (collapse_plain _ _ _ Hn). f_equal.
  destruct k as [|k].
  - rewrite collapse_dots; [| now apply Forall_rev | constructor].
    now rewrite rev_involutive, app_nil_r.
  - now rewrite (Hk (Nat.neq_succ_0 k)).
Qed.

Lemma split_join (comps : list string) :
  Forall (fun x => pystr.contains posixpath.sep x = false) comps -> comps <> [] ->
  pystr.split posixpath.sep (pystr.join "/" comps) = comps.
Proof.
  unfold pystr.join. induction 1 as [|x comps Hx Hc IH]; intros Hne; [contradiction |].
  destruct comps as [|y comps].
  - cbn [String.concat]. now apply split_no_sep.
  - change (String.concat "/" (x :: y :: comps))
      with (x ++ String posixpath.sep (String.concat "/" (y :: comps))).
    rewrite split_app_sep, (split_no_sep _ _ Hx), IH by discriminate. reflexivity.
Qed.

Lemma join_first_char (comps : list string) :
  Forall (fun x => pystr.contains posixpath.sep x = false) comps ->
  Forall (fun x => x <> "") comps -> comps <> [] ->
  exists a t, pystr.join "/" comps = String a t /\ Ascii.eqb a posixpath.sep = false.
Proof.
  unfold pystr.join. intros Hs Hn Hne. destruct comps as [|x comps]; [contradiction |].
  inversion Hs as [|? ? Hx _]. inversion Hn as [|? ? Hxn _]. subst.
  destruct x as [|a x]; [contradiction |].
  cbn [pystr.contains] in Hx. apply orb_false_iff in Hx as [Ha _].
  destruct comps; cbn [String.concat append]; eauto.
Qed.

Lemma normpath_of_joined (k : nat) (st : list string) :
  k = 0 \/ k = 1 \/ k = 2 ->
  stack_shape k st ->
  Forall (fun x => pystr.contains posixpath.sep x = false) st ->
  posixpath.slashes_str k ++ pystr.join "/" (rev st) <> "" ->
  posixpath.normpath (posixpath.slashes_str k ++ pystr.join "/" (rev st))
  = posixpath.slashes_str k ++ pystr.join "/" (rev st).
Proof.
  intros Hk Hshape Hsep Hne.
  destruct (rev st) as [|c0 comps0] eqn:Erev.
  { destruct Hk as [-> | [-> | ->]]; [contradiction | reflexivity | reflexivity]. }
  rewrite <- Erev in *.
  assert (Forall (fun x => pystr.contains posixpath.sep x = false) (rev st)) as Hsep'
      by now apply Forall_rev.
  assert (rev st <> []) as Hnil by (rewrite Erev; discriminate).
  destruct Hshape as (names & dots & Est & Hd & Hkd & Hn).
  assert (rev st = (rev dots ++ names)%list) as Ecomps.
  { rewrite Est, rev_app_distr, rev_involutive. reflexivity. }
  assert (Forall (fun x => x <> "") (rev st)) as Hnonempty.
  { rewrite Ecomps. apply Forall_app. split.
    - apply Forall_rev. eapply Forall_impl; [| exact Hd]. intros x <-. discriminate.
    - eapply Forall_impl; [| exact Hn]. now intros x (H & _). }
  destruct (join_first_char _ Hsep' Hnonempty Hnil) as (a & t & Ej & Ha).
  assert (Ascii.eqb posixpath.sep a = false) as Ha' by now rewrite Ascii.eqb_sym.
  assert (posixpath.collapse k (rev st) [] = st) as Hcol.
  { rewrite Ecomps, (collapse_fixed k names dots Hd Hkd Hn). now rewrite Est. }
  unfold posixpath.normpath.
  destruct (String.eqb_spec (posixpath.slashes_str k ++ pystr.join "/" (rev st)) "")
    as [|_]; [contradiction |].
  assert (posixpath.initial_slashes (posixpath.slashes_str k ++ pystr.join "/" (rev st)) = k)
    as Hinit.
  { rewrite Ej. unfold posixpath.initial_slashes.
    destruct Hk as [-> | [-> | ->]];
      cbn [posixpath.slashes_str append pystr.startswith];
      fold posixpath.sep; rewrite ?Ascii.eqb_refl, ?Ha'; reflexivity. }
  cbv zeta. rewrite Hinit.
  assert (posixpath.collapse k
            (pystr.split posixpath.sep (posixpath.slashes_str k ++ pystr.join "/" (rev st))) []
          = st) as Hsplit.
  { destruct Hk as [-> | [-> | ->]];
      cbn [posixpath.slashes_str append pystr.split];
      rewrite ?Ascii.eqb_refl, (split_join _ Hsep' Hnil);
      cbn [posixpath.collapse String.eqb orb]; exact Hcol. }
  rewrite Hsplit.
  destruct (String.eqb_spec (posixpath.slashes_str k ++ pystr.join "/" (rev st)) "");
    [contradiction | reflexivity].
Qed.

Lemma initial_slashes_range (p : string) :
  posixpath.initial_slashes p = 0 \/ posixpath.initial_slashes p = 1
  \/ posixpath.initial_slashes p = 2.
Proof.
  unfold posixpath.initial_slashes.
  destruct (pystr.startswith "/" p); [| auto].
  destruct (pystr.startswith "//" p && negb (pystr.startswith "///" p)); auto.
Qed.

Lemma normpath_idempotent (p : string) :
  posixpath.normpath (posixpath.normpath p) = posixpath.normpath p.
Proof.
  destruct (String.eqb_spec p "") as [->|Hp]; [reflexivity |].
  set (k := posixpath.initial_slashes p).
  set (st := posixpath.collapse k (pystr.split posixpath.sep p) []).
  assert (posixpath.normpath p
          = if posixpath.slashes_str k ++ pystr.join "/" (rev st) =? ""
            then posixpath.curdir
            else posixpath.slashes_str k ++ pystr.join "/" (rev st)) as ->.
  { unfold posixpath.normpath. destruct (String.eqb_spec p ""); [contradiction | reflexivity]. }
  destruct (String.eqb_spec (posixpath.slashes_str k ++ pystr.join "/" (rev st)) "")
    as [_|Hne]; [reflexivity |].
  apply normpath_of_joined; [apply initial_slashes_range | | | exact Hne].
  - apply collapse_shape. exists [], []. repeat split; auto.
  - apply collapse_members; [| constructor].
    apply Forall_forall. intros x Hx. now apply split_words_no_sep in Hx.
Qed.

(** X11. The resolved serve directory is a fixed point of the resolution:
    started again with the directory it printed as its argument, from the
    same place, the script runs as before (same outcome, state and trace). *)
Theorem printed_directory_resolves_to_itself
        (w : World) (argv : list string) (prog __file__ : string) (fuel : nat) :
  posixpath.isabs (w_cwd w) = true ->
  run w [prog; serve_root w argv] __file__ fuel = run w argv __file__ fuel.
Proof.
  intros Habs. unfold run, main. rewrite !serve_dir_arg. cbn [nth].
  rewrite !(bind_returned _ _ _ _ _ (os_path_abspath_eq _ _)). cbn [cwd init].
  replace (posixpath.abspath_from (w_cwd w) (serve_root w argv))
    with (posixpath.abspath_from (w_cwd w) (nth 1 argv ".")); [reflexivity |].
  unfold serve_root.
  unfold posixpath.abspath_from at 2.
  rewrite (abspath_from_isabs _ _ Habs).
  unfold posixpath.abspath_from. now rewrite normpath_idempotent.
Qed.

Lemma printed_directory_resolves_to_itself_witness :
  run (demo_world "/srv" true)
      ["https_server.py"; serve_root (demo_world "/srv" true) ["https_server.py"; "./www/../www/"]]
      "/opt/gfx/scripts/https_server.py" 2
  = run (demo_world "/srv" true) ["https_server.py"; "./www/../www/"]
        "/opt/gfx/scripts/https_server.py" 2.
Proof.
  exact (printed_directory_resolves_to_itself (demo_world "/srv" true)
           ["https_server.py"; "./www/../www/"] "https_server.py"
           "/opt/gfx/scripts/https_server.py" 2 eq_refl).
Defined.

(** *** The path of a request below the served directory *)

Lemma before_app_sep (c : ascii) (t q : string) :
  pystr.before c (t ++ String c q) = pystr.before c t.
Proof.
  induction t as [|a t IH]; cbn [append pystr.before].
  - now rewrite Ascii.eqb_refl.
  - destruct (Ascii.eqb a c); [reflexivity | now rewrite IH].
Qed.

Lemma before_fragment (t q : string) :
  pystr.before "#" (pystr.before "?" (t ++ String "#" q))
  = pystr.before "#" (pystr.before "?" t).
Proof.
  induction t as [|a t IH]; cbn [append pystr.before].
  - reflexivity.
  - destruct (Ascii.eqb a "?"); [reflexivity |].
    cbn [pystr.before]. destruct (Ascii.eqb a "#"); [reflexivity | now rewrite IH].
Qed.

(** X12. The query and the fragment of a request target play no part in
    the choice of the file: what follows the first [?] or [#] is dropped
    before the path is resolved. *)
Theorem query_and_fragment_are_dropped (directory target rest : string) :
  http_server.translate_path directory (target ++ String "?" rest)
  = http_server.translate_path directory target
  /\ http_server.translate_path directory (target ++ String "#" rest)
     = http_server.translate_path directory target.
Proof.
  unfold http_server.translate_path. split.
  - now rewrite before_app_sep.
  - now rewrite before_fragment.
Qed.

Lemma contains_app (c : ascii) (a b : string) :
  pystr.contains c (a ++ b) = pystr.contains c a || pystr.contains c b.
Proof.
  induction a as [|x a IH]; [reflexivity |].
  cbn [append pystr.contains]. now rewrite IH, orb_assoc.
Qed.

Lemma all_chars_app (f : ascii -> bool) (a b : string) :
  all_chars f (a ++ b) = all_chars f a && all_chars f b.
Proof.
  induction a as [|x a IH]; [reflexivity |].
  cbn [append all_chars]. now rewrite IH, andb_assoc.
Qed.

Lemma all_chars_contains (f : ascii -> bool) (c : ascii) (s : string) :
  f c = false -> all_chars f s = true -> pystr.contains c s = false.
Proof.
  intros Hc. induction s as [|a s IH]; [reflexivity |].
  cbn [all_chars pystr.contains]. intros H. apply andb_true_iff in H as [Ha Hs].
  rewrite (IH Hs), orb_false_r.
  destruct (Ascii.eqb_spec a c) as [->|]; [congruence | reflexivity].
Qed.

Lemma all_chars_weaken (f g : ascii -> bool) (s : string) :
  (forall a, f a = true -> g a = true) -> all_chars f s = true -> all_chars g s = true.
Proof.
  intros Hfg. induction s as [|a s IH]; [reflexivity |].
  cbn [all_chars]. intros H. apply andb_true_iff in H as [Ha Hs].
  now rewrite (Hfg _ Ha), (IH Hs).
Qed.

Lemma all_chars_join (f : ascii -> bool) (names : list string) :
  f "/"%char = true -> Forall (fun n => all_chars f n = true) names ->
  all_chars f (pystr.join "/" names) = true.
Proof.
  intros Hsep. unfold pystr.join. induction 1 as [|n names Hn Hns IH]; [reflexivity |].
  destruct names as [|m names]; [exact Hn |].
  change (String.concat "/" (n :: m :: names))
    with (n ++ String "/" (String.concat "/" (m :: names))).
  rewrite all_chars_app. cbn [all_chars]. now rewrite Hn, Hsep, IH.
Qed.

Lemma contains_join (c : ascii) (names : list string) :
  Ascii.eqb "/" c = false -> Forall (fun n => pystr.contains c n = false) names ->
  pystr.contains c (pystr.join "/" names) = false.
Proof.
  intros Hsep. unfold pystr.join. induction 1 as [|n names Hn Hns IH]; [reflexivity |].
  destruct names as [|m names]; [exact Hn |].
  change (String.concat "/" (n :: m :: names))
    with (n ++ String "/" (String.concat "/" (m :: names))).
  rewrite contains_app. cbn [pystr.contains]. now rewrite Hn, Hsep, IH.
Qed.

Lemma before_absent (c : ascii) (s : string) :
  pystr.contains c s = false -> pystr.before c s = s.
Proof.
  induction s as [|a s IH]; [reflexivity |].
  cbn [pystr.contains pystr.before]. intros H. apply orb_false_iff in H as [Ha Hs].
  now rewrite Ha, (IH Hs).
Qed.

Lemma unquote_absent (s : string) :
  pystr.contains "%" s = false -> http_server.unquote s = s.
Proof.
  induction s as [|a s IH]; [reflexivity |].
  cbn [pystr.contains]. intros H. apply orb_false_iff in H as [Ha Hs].
  cbn [http_server.unquote]. now rewrite Ha, (IH Hs).
Qed.

Lemma rstrip_all_kept (keep : ascii -> bool) (s : string) :
  all_chars keep s = true -> pystr.rstrip keep s = s.
Proof.
  induction s as [|a s IH]; [reflexivity |].
  cbn [all_chars pystr.rstrip]. intros H. apply andb_true_iff in H as [Ha Hs].
  rewrite (IH Hs). destruct s; [now rewrite Ha | reflexivity].
Qed.

Lemma endswith_absent (c : ascii) (s : string) :
  pystr.contains c s = false -> pystr.endswith c s = false.
Proof.
  induction s as [|a s IH]; [reflexivity |].
  cbn [pystr.contains]. intros H. apply orb_false_iff in H as [Ha Hs].
  destruct s as [|b s]; [exact Ha |].
  change (pystr.endswith c (String b s) = false). now apply IH.
Qed.

Lemma endswith_join (names : list string) :
  Forall (fun n => pystr.contains posixpath.sep n = false) names ->
  Forall (fun n => n <> "") names ->
  pystr.endswith posixpath.sep (pystr.join "/" names) = false.
Proof.
  unfold pystr.join. induction 1 as [|n names Hn Hns IH]; intros Hne; [reflexivity |].
  inversion Hne as [|? ? Hn0 Hne']. subst.
  destruct names as [|m names]; [now apply endswith_absent |].
  change (String.concat "/" (n :: m :: names))
    with (n ++ String "/" (String.concat "/" (m :: names))).
  rewrite endswith_app_r by discriminate.
  inversion Hne' as [|? ? Hm _]. subst.
  assert (String.concat "/" (m :: names) <> "") as Hcat.
  { destruct m; [contradiction |]. destruct names; discriminate. }
  specialize (IH Hne').
  destruct (String.concat "/" (m :: names)) eqn:E; [contradiction | exact IH].
Qed.

Lemma url_name_inv (n : string) :
  url_name n = true ->
  plain_comp n
  /\ pystr.contains "/" n = false /\ pystr.contains "?" n = false
  /\ pystr.contains "#" n = false /\ pystr.contains "%" n = false
  /\ all_chars (fun a => negb (pystr.isspace a)) n = true.
Proof.
  unfold url_name. intros H.
  apply andb_true_iff in H as [H Hc]. apply andb_true_iff in H as [H H3].
  apply andb_true_iff in H as [H1 H2].
  apply negb_true_iff, String.eqb_neq in H1, H2, H3.
  split; [repeat split; assumption |].
  repeat split; try (apply (all_chars_contains url_char); [reflexivity | exact Hc]).
  apply (all_chars_weaken url_char); [| exact Hc].
  intros a Ha. unfold url_char in Ha.
  repeat (apply andb_true_iff in Ha as [Ha _]). exact Ha.
Qed.

Lemma dirname_no_sep (n : string) :
  pystr.contains posixpath.sep n = false -> posixpath.dirname n = "".
Proof. intros H. unfold posixpath.dirname. now rewrite (head_no_sep _ H). Qed.

Lemma add_word_name (p n : string) :
  p <> "" -> pystr.endswith posixpath.sep p = false ->
  plain_comp n -> pystr.contains posixpath.sep n = false ->
  http_server.add_word p n = p ++ String "/" n.
Proof.
  intros Hp He (_ & H2 & H3) Hs. unfold http_server.add_word.
  rewrite (dirname_no_sep _ Hs).
  destruct (String.eqb_spec n posixpath.curdir); [contradiction |].
  destruct (String.eqb_spec n posixpath.pardir); [contradiction |].
  cbn [String.eqb negb orb]. unfold posixpath.join.
  destruct (pystr.startswith "/" n) eqn:Ea.
  { apply startswith_contains in Ea. unfold posixpath.sep in Hs. congruence. }
  destruct (String.eqb_spec p ""); [contradiction |]. now rewrite He.
Qed.

Lemma fold_add_word_names (names : list string) (p : string) :
  p <> "" -> pystr.endswith posixpath.sep p = false ->
  Forall plain_comp names ->
  Forall (fun n => pystr.contains posixpath.sep n = false) names ->
  names <> [] ->
  fold_left http_server.add_word names p = p ++ String "/" (pystr.join "/" names).
Proof.
  revert p. induction names as [|n names IH]; intros p Hp He Hn Hs Hne; [contradiction |].
  inversion Hn as [|? ? Hn1 Hn2]. inversion Hs as [|? ? Hs1 Hs2]. subst.
  cbn [fold_left]. rewrite (add_word_name p n Hp He Hn1 Hs1).
  destruct names as [|m names]; [reflexivity |].
  rewrite IH; try assumption; try discriminate.
  - unfold pystr.join.
    change (String.concat "/" (n :: m :: names))
      with (n ++ String "/" (String.concat "/" (m :: names))).
    rewrite append_assoc. reflexivity.
  - destruct p; [contradiction | discriminate].
  - rewrite endswith_app_r by discriminate.
    destruct Hn1 as (Hn0 & _). destruct n as [|a n]; [contradiction |].
    change (pystr.endswith posixpath.sep (String a n) = false).
    now apply endswith_absent.
Qed.

Lemma filter_nonempty (names : list string) :
  Forall (fun n => n <> "") names -> filter (fun word => negb (word =? "")) names = names.
Proof.
  induction 1 as [|n names Hn _ IH]; [reflexivity |].
  cbn [filter]. destruct (String.eqb_spec n ""); [contradiction |].
  cbn [negb]. now rewrite IH.
Qed.

(** X13. A request path made of plain file names ([/a/b/c], no quoting,
    no [.] or [..]) is resolved to the same names below the served
    directory. *)
Theorem plain_path_resolves_below_root (directory : string) (names : list string) :
  directory <> "" -> pystr.endswith "/" directory = false ->
  names <> [] -> Forall (fun n => url_name n = true) names ->
  http_server.translate_path directory (String "/" (pystr.join "/" names))
  = directory ++ String "/" (pystr.join "/" names).
Proof.
  intros Hd He Hne Hnames.
  assert (Forall plain_comp names) as Hplain.
  { eapply Forall_impl; [| exact Hnames]. intros n H. now apply url_name_inv in H. }
  assert (forall c, In c ["/"; "?"; "#"; "%"]%char ->
                    Forall (fun n => pystr.contains c n = false) names) as Hno.
  { intros c Hc. eapply Forall_impl; [| exact Hnames]. intros n H.
    apply url_name_inv in H as (_ & H1 & H2 & H3 & H4 & _).
    destruct Hc as [<-|[<-|[<-|[<-|[]]]]]; assumption. }
  assert (Forall (fun n => n <> "") names) as Hnonempty.
  { eapply Forall_impl; [| exact Hplain]. now intros n (H & _). }
  set (t := String "/" (pystr.join "/" names)).
  assert (pystr.contains "?" t = false) as Hq.
  { unfold t. cbn [pystr.contains]. rewrite contains_join; [reflexivity | reflexivity |].
    apply Hno. cbn. auto. }
  assert (pystr.contains "#" t = false) as Hf.
  { unfold t. cbn [pystr.contains]. rewrite contains_join; [reflexivity | reflexivity |].
    apply Hno. cbn. auto. }
  assert (pystr.contains "%" t = false) as Hp.
  { unfold t. cbn [pystr.contains]. rewrite contains_join; [reflexivity | reflexivity |].
    apply Hno. cbn. auto. }
  assert (Forall (fun n => pystr.contains posixpath.sep n = false) names) as Hsep.
  { apply Hno. cbn. auto. }
  assert (pystr.rstrip (fun a => negb (pystr.isspace a)) t = t) as Hstrip.
  { apply rstrip_all_kept. unfold t. cbn [all_chars].
    rewrite all_chars_join; [reflexivity | reflexivity |].
    eapply Forall_impl; [| exact Hnames]. intros n H. now apply url_name_inv in H. }
  assert (pystr.endswith "/" t = false) as Hend.
  { unfold t. pose proof (endswith_join names Hsep Hnonempty) as Hj.
    destruct (pystr.join "/" names) eqn:E; [| exact Hj].
    destruct names as [|n names]; [contradiction |].
    inversion Hnonempty as [|? ? Hn0 _]. subst. unfold pystr.join in E.
    destruct n; [contradiction |]. destruct names; discriminate. }
  assert (posixpath.normpath t = t) as Hnorm.
  { unfold t. rewrite <- (rev_involutive names).
    apply (normpath_of_joined 1 (rev names)); [auto | | now apply Forall_rev | discriminate].
    exists names, []. rewrite app_nil_r. repeat split; auto. }
  unfold http_server.translate_path.
  rewrite (before_absent _ _ Hq), (before_absent _ _ Hf), Hstrip, Hend,
    (unquote_absent _ Hp), Hnorm.
  assert (pystr.split "/" t = "" :: names) as ->.
  { exact (f_equal (cons "") (split_join names Hsep Hne)). }
  cbn [filter String.eqb negb]. rewrite (filter_nonempty _ Hnonempty).
  apply fold_add_word_names; assumption.
Qed.

Lemma plain_path_resolves_below_root_witness :
  http_server.translate_path "/srv/www" "/assets/logo.png" = "/srv/www/assets/logo.png".
Proof.
  apply (plain_path_resolves_below_root "/srv/www" ["assets"; "logo.png"]).
  - discriminate.
  - reflexivity.
  - discriminate.
  - repeat constructor.
Defined.
